(** * tornado_smb.nbt: NetBIOS names and NBNS messages

    A shallow embedding of [tornado_smb/nbt.py].

    Python values are rendered as follows.
    - [int] is [Z] (unbounded, two's complement for the bit operators, which
      is what [Z.land], [Z.lor], [Z.shiftl] and [Z.shiftr] compute).
    - [bytes] is [list Z]; the constructor [bytes((...))] checks every item
      against [range(0, 256)] and raises [ValueError] otherwise.
    - [str] is the list of its code points, [list Z].  [str.encode()] and
      [bytes.decode()] are UTF-8, [str.upper()] is the full upper-case
      mapping, which can make a text longer.
    - an exception is a value of [exn]; a call that may raise returns
      [result]. *)

From Stdlib Require Import String Ascii ZArith List Bool Lia.
Import ListNotations.
Local Open Scope Z_scope.

(** ** Exceptions and results *)

(** The places of the module where a [ValueError] is raised. *)
Inductive value_error : Type :=
| NameTooLong                 (* NBName.__init__: len(value) > 15 *)
| RootLength (actual : Z)     (* NBName.from_bytes: last byte is not 0 *)
| NameLength (actual : Z)     (* NBName.from_bytes: first byte is not 32 *)
| ByteRange.                  (* bytes((...)): item outside range(0, 256) *)

(** The exceptions of the module.  [UnicodeDecodeError] and
    [UnicodeEncodeError] are subclasses of [ValueError] in Python; they are
    kept apart from the [ValueError]s that the module raises itself. *)
Inductive exn : Type :=
| ValueError (why : value_error)
| IndexError
| TypeError
| StructError
| UnicodeDecodeError
| UnicodeEncodeError.

Inductive result (A : Type) : Type :=
| Ok (a : A)
| Raise (e : exn).
Arguments Ok {A} a.
Arguments Raise {A} e.

Definition bind {A B : Type} (m : result A) (k : A -> result B) : result B :=
  match m with
  | Ok a => k a
  | Raise e => Raise e
  end.

Notation "x <- m ;; k" := (bind m (fun x => k))
  (at level 61, m at next level, right associativity).

(** [[f(x) for x in xs]], stopping at the first exception. *)
Fixpoint mapM {A B : Type} (f : A -> result B) (xs : list A) : result (list B) :=
  match xs with
  | [] => Ok []
  | x :: xs' => y <- f x ;; ys <- mapM f xs' ;; Ok (y :: ys)
  end.

(** ** Python sequences *)

Definition bytes := list Z.
Definition str := list Z.

Definition len {A : Type} (l : list A) : Z := Z.of_nat (List.length l).

Definition is_byte (b : Z) : bool := (0 <=? b) && (b <? 256).

(** [bytes((x, ...))] and [bytes([x, ...])]. *)
Definition mk_bytes (items : list Z) : result bytes :=
  if forallb is_byte items then Ok items else Raise (ValueError ByteRange).

(** [l[i]], with Python's negative indices. *)
Definition index {A : Type} (l : list A) (i : Z) : result A :=
  let j := if i <? 0 then i + len l else i in
  if j <? 0 then Raise IndexError
  else match nth_error l (Z.to_nat j) with
       | Some a => Ok a
       | None => Raise IndexError
       end.

(** A slice bound brought into [0 .. len]. *)
Definition clamp (n i : Z) : Z :=
  if i <? 0 then Z.max 0 (i + n) else Z.min i n.

(** [l[lo:hi]]. *)
Definition slice {A : Type} (l : list A) (lo hi : Z) : list A :=
  let a := clamp (len l) lo in
  let b := clamp (len l) hi in
  firstn (Z.to_nat (b - a)) (skipn (Z.to_nat a) l).

(** [l[lo:]] and [l[:hi]]. *)
Definition slice_from {A : Type} (l : list A) (lo : Z) : list A :=
  slice l lo (len l).
Definition slice_to {A : Type} (l : list A) (hi : Z) : list A :=
  slice l 0 hi.

(** A string literal as a [str] or as ASCII [bytes]. *)
Fixpoint lit (s : string) : list Z :=
  match s with
  | EmptyString => []
  | String c s' => Z.of_N (N_of_ascii c) :: lit s'
  end.

(** ** Text *)

Definition is_ascii (c : Z) : bool := (0 <=? c) && (c <? 128).
Definition ascii_text (s : list Z) : bool := forallb is_ascii s.

Definition upper_char (c : Z) : Z :=
  if (97 <=? c) && (c <=? 122) then c - 32 else c.

(** The upper-case mapping of the characters above U+007F that
    [str.upper()] changes (Unicode 14.0.0): one to three characters for
    each, whatever stands around it. *)
Definition upper_table : list (Z * list Z) :=
  [(181, [924]); (223, [83; 83]); (224, [192]); (225, [193]); (226, [194]);
   (227, [195]); (228, [196]); (229, [197]); (230, [198]); (231, [199]);
   (232, [200]); (233, [201]); (234, [202]); (235, [203]); (236, [204]);
   (237, [205]); (238, [206]); (239, [207]); (240, [208]); (241, [209]);
   (242, [210]); (243, [211]); (244, [212]); (245, [213]); (246, [214]);
   (248, [216]); (249, [217]); (250, [218]); (251, [219]); (252, [220]);
   (253, [221]); (254, [222]); (255, [376]); (257, [256]); (259, [258]);
   (261, [260]); (263, [262]); (265, [264]); (267, [266]); (269, [268]);
   (271, [270]); (273, [272]); (275, [274]); (277, [276]); (279, [278]);
   (281, [280]); (283, [282]); (285, [284]); (287, [286]); (289, [288]);
   (291, [290]); (293, [292]); (295, [294]); (297, [296]); (299, [298]);
   (301, [300]); (303, [302]); (305, [73]); (307, [306]); (309, [308]);
   (311, [310]); (314, [313]); (316, [315]); (318, [317]); (320, [319]);
   (322, [321]); (324, [323]); (326, [325]); (328, [327]); (329, [700; 78]);
   (331, [330]); (333, [332]); (335, [334]); (337, [336]); (339, [338]);
   (341, [340]); (343, [342]); (345, [344]); (347, [346]); (349, [348]);
   (351, [350]); (353, [352]); (355, [354]); (357, [356]); (359, [358]);
   (361, [360]); (363, [362]); (365, [364]); (367, [366]); (369, [368]);
   (371, [370]); (373, [372]); (375, [374]); (378, [377]); (380, [379]);
   (382, [381]); (383, [83]); (384, [579]); (387, [386]); (389, [388]);
   (392, [391]); (396, [395]); (402, [401]); (405, [502]); (409, [408]);
   (410, [573]); (414, [544]); (417, [416]); (419, [418]); (421, [420]);
   (424, [423]); (429, [428]); (432, [431]); (436, [435]); (438, [437]);
   (441, [440]); (445, [444]); (447, [503]); (453, [452]); (454, [452]);
   (456, [455]); (457, [455]); (459, [458]); (460, [458]); (462, [461]);
   (464, [463]); (466, [465]); (468, [467]); (470, [469]); (472, [471]);
   (474, [473]); (476, [475]); (477, [398]); (479, [478]); (481, [480]);
   (483, [482]); (485, [484]); (487, [486]); (489, [488]); (491, [490]);
   (493, [492]); (495, [494]); (496, [74; 780]); (498, [497]); (499, [497]);
   (501, [500]); (505, [504]); (507, [506]); (509, [508]); (511, [510]);
   (513, [512]); (515, [514]); (517, [516]); (519, [518]); (521, [520]);
   (523, [522]); (525, [524]); (527, [526]); (529, [528]); (531, [530]);
   (533, [532]); (535, [534]); (537, [536]); (539, [538]); (541, [540]);
   (543, [542]); (547, [546]); (549, [548]); (551, [550]); (553, [552]);
   (555, [554]); (557, [556]); (559, [558]); (561, [560]); (563, [562]);
   (572, [571]); (575, [11390]); (576, [11391]); (578, [577]); (583, [582]);
   (585, [584]); (587, [586]); (589, [588]); (591, [590]); (592, [11375]);
   (593, [11373]); (594, [11376]); (595, [385]); (596, [390]); (598, [393]);
   (599, [394]); (601, [399]); (603, [400]); (604, [42923]); (608, [403]);
   (609, [42924]); (611, [404]); (613, [42893]); (614, [42922]);
   (616, [407]); (617, [406]); (618, [42926]); (619, [11362]);
   (620, [42925]); (623, [412]); (625, [11374]); (626, [413]); (629, [415]);
   (637, [11364]); (640, [422]); (642, [42949]); (643, [425]);
   (647, [42929]); (648, [430]); (649, [580]); (650, [433]); (651, [434]);
   (652, [581]); (658, [439]); (669, [42930]); (670, [42928]); (837, [921]);
   (881, [880]); (883, [882]); (887, [886]); (891, [1021]); (892, [1022]);
   (893, [1023]); (912, [921; 776; 769]); (940, [902]); (941, [904]);
   (942, [905]); (943, [906]); (944, [933; 776; 769]); (945, [913]);
   (946, [914]); (947, [915]); (948, [916]); (949, [917]); (950, [918]);
   (951, [919]); (952, [920]); (953, [921]); (954, [922]); (955, [923]);
   (956, [924]); (957, [925]); (958, [926]); (959, [927]); (960, [928]);
   (961, [929]); (962, [931]); (963, [931]); (964, [932]); (965, [933]);
   (966, [934]); (967, [935]); (968, [936]); (969, [937]); (970, [938]);
   (971, [939]); (972, [908]); (973, [910]); (974, [911]); (976, [914]);
   (977, [920]); (981, [934]); (982, [928]); (983, [975]); (985, [984]);
   (987, [986]); (989, [988]); (991, [990]); (993, [992]); (995, [994]);
   (997, [996]); (999, [998]); (1001, [1000]); (1003, [1002]);
   (1005, [1004]); (1007, [1006]); (1008, [922]); (1009, [929]);
   (1010, [1017]); (1011, [895]); (1013, [917]); (1016, [1015]);
   (1019, [1018]); (1072, [1040]); (1073, [1041]); (1074, [1042]);
   (1075, [1043]); (1076, [1044]); (1077, [1045]); (1078, [1046]);
   (1079, [1047]); (1080, [1048]); (1081, [1049]); (1082, [1050]);
   (1083, [1051]); (1084, [1052]); (1085, [1053]); (1086, [1054]);
   (1087, [1055]); (1088, [1056]); (1089, [1057]); (1090, [1058]);
   (1091, [1059]); (1092, [1060]); (1093, [1061]); (1094, [1062]);
   (1095, [1063]); (1096, [1064]); (1097, [1065]); (1098, [1066]);
   (1099, [1067]); (1100, [1068]); (1101, [1069]); (1102, [1070]);
   (1103, [1071]); (1104, [1024]); (1105, [1025]); (1106, [1026]);
   (1107, [1027]); (1108, [1028]); (1109, [1029]); (1110, [1030]);
   (1111, [1031]); (1112, [1032]); (1113, [1033]); (1114, [1034]);
   (1115, [1035]); (1116, [1036]); (1117, [1037]); (1118, [1038]);
   (1119, [1039]); (1121, [1120]); (1123, [1122]); (1125, [1124]);
   (1127, [1126]); (1129, [1128]); (1131, [1130]); (1133, [1132]);
   (1135, [1134]); (1137, [1136]); (1139, [1138]); (1141, [1140]);
   (1143, [1142]); (1145, [1144]); (1147, [1146]); (1149, [1148]);
   (1151, [1150]); (1153, [1152]); (1163, [1162]); (1165, [1164]);
   (1167, [1166]); (1169, [1168]); (1171, [1170]); (1173, [1172]);
   (1175, [1174]); (1177, [1176]); (1179, [1178]); (1181, [1180]);
   (1183, [1182]); (1185, [1184]); (1187, [1186]); (1189, [1188]);
   (1191, [1190]); (1193, [1192]); (1195, [1194]); (1197, [1196]);
   (1199, [1198]); (1201, [1200]); (1203, [1202]); (1205, [1204]);
   (1207, [1206]); (1209, [1208]); (1211, [1210]); (1213, [1212]);
   (1215, [1214]); (1218, [1217]); (1220, [1219]); (1222, [1221]);
   (1224, [1223]); (1226, [1225]); (1228, [1227]); (1230, [1229]);
   (1231, [1216]); (1233, [1232]); (1235, [1234]); (1237, [1236]);
   (1239, [1238]); (1241, [1240]); (1243, [1242]); (1245, [1244]);
   (1247, [1246]); (1249, [1248]); (1251, [1250]); (1253, [1252]);
   (1255, [1254]); (1257, [1256]); (1259, [1258]); (1261, [1260]);
   (1263, [1262]); (1265, [1264]); (1267, [1266]); (1269, [1268]);
   (1271, [1270]); (1273, [1272]); (1275, [1274]); (1277, [1276]);
   (1279, [1278]); (1281, [1280]); (1283, [1282]); (1285, [1284]);
   (1287, [1286]); (1289, [1288]); (1291, [1290]); (1293, [1292]);
   (1295, [1294]); (1297, [1296]); (1299, [1298]); (1301, [1300]);
   (1303, [1302]); (1305, [1304]); (1307, [1306]); (1309, [1308]);
   (1311, [1310]); (1313, [1312]); (1315, [1314]); (1317, [1316]);
   (1319, [1318]); (1321, [1320]); (1323, [1322]); (1325, [1324]);
   (1327, [1326]); (1377, [1329]); (1378, [1330]); (1379, [1331]);
   (1380, [1332]); (1381, [1333]); (1382, [1334]); (1383, [1335]);
   (1384, [1336]); (1385, [1337]); (1386, [1338]); (1387, [1339]);
   (1388, [1340]); (1389, [1341]); (1390, [1342]); (1391, [1343]);
   (1392, [1344]); (1393, [1345]); (1394, [1346]); (1395, [1347]);
   (1396, [1348]); (1397, [1349]); (1398, [1350]); (1399, [1351]);
   (1400, [1352]); (1401, [1353]); (1402, [1354]); (1403, [1355]);
   (1404, [1356]); (1405, [1357]); (1406, [1358]); (1407, [1359]);
   (1408, [1360]); (1409, [1361]); (1410, [1362]); (1411, [1363]);
   (1412, [1364]); (1413, [1365]); (1414, [1366]); (1415, [1333; 1362]);
   (4304, [7312]); (4305, [7313]); (4306, [7314]); (4307, [7315]);
   (4308, [7316]); (4309, [7317]); (4310, [7318]); (4311, [7319]);
   (4312, [7320]); (4313, [7321]); (4314, [7322]); (4315, [7323]);
   (4316, [7324]); (4317, [7325]); (4318, [7326]); (4319, [7327]);
   (4320, [7328]); (4321, [7329]); (4322, [7330]); (4323, [7331]);
   (4324, [7332]); (4325, [7333]); (4326, [7334]); (4327, [7335]);
   (4328, [7336]); (4329, [7337]); (4330, [7338]); (4331, [7339]);
   (4332, [7340]); (4333, [7341]); (4334, [7342]); (4335, [7343]);
   (4336, [7344]); (4337, [7345]); (4338, [7346]); (4339, [7347]);
   (4340, [7348]); (4341, [7349]); (4342, [7350]); (4343, [7351]);
   (4344, [7352]); (4345, [7353]); (4346, [7354]); (4349, [7357]);
   (4350, [7358]); (4351, [7359]); (5112, [5104]); (5113, [5105]);
   (5114, [5106]); (5115, [5107]); (5116, [5108]); (5117, [5109]);
   (7296, [1042]); (7297, [1044]); (7298, [1054]); (7299, [1057]);
   (7300, [1058]); (7301, [1058]); (7302, [1066]); (7303, [1122]);
   (7304, [42570]); (7545, [42877]); (7549, [11363]); (7566, [42950]);
   (7681, [7680]); (7683, [7682]); (7685, [7684]); (7687, [7686]);
   (7689, [7688]); (7691, [7690]); (7693, [7692]); (7695, [7694]);
   (7697, [7696]); (7699, [7698]); (7701, [7700]); (7703, [7702]);
   (7705, [7704]); (7707, [7706]); (7709, [7708]); (7711, [7710]);
   (7713, [7712]); (7715, [7714]); (7717, [7716]); (7719, [7718]);
   (7721, [7720]); (7723, [7722]); (7725, [7724]); (7727, [7726]);
   (7729, [7728]); (7731, [7730]); (7733, [7732]); (7735, [7734]);
   (7737, [7736]); (7739, [7738]); (7741, [7740]); (7743, [7742]);
   (7745, [7744]); (7747, [7746]); (7749, [7748]); (7751, [7750]);
   (7753, [7752]); (7755, [7754]); (7757, [7756]); (7759, [7758]);
   (7761, [7760]); (7763, [7762]); (7765, [7764]); (7767, [7766]);
   (7769, [7768]); (7771, [7770]); (7773, [7772]); (7775, [7774]);
   (7777, [7776]); (7779, [7778]); (7781, [7780]); (7783, [7782]);
   (7785, [7784]); (7787, [7786]); (7789, [7788]); (7791, [7790]);
   (7793, [7792]); (7795, [7794]); (7797, [7796]); (7799, [7798]);
   (7801, [7800]); (7803, [7802]); (7805, [7804]); (7807, [7806]);
   (7809, [7808]); (7811, [7810]); (7813, [7812]); (7815, [7814]);
   (7817, [7816]); (7819, [7818]); (7821, [7820]); (7823, [7822]);
   (7825, [7824]); (7827, [7826]); (7829, [7828]); (7830, [72; 817]);
   (7831, [84; 776]); (7832, [87; 778]); (7833, [89; 778]);
   (7834, [65; 702]); (7835, [7776]); (7841, [7840]); (7843, [7842]);
   (7845, [7844]); (7847, [7846]); (7849, [7848]); (7851, [7850]);
   (7853, [7852]); (7855, [7854]); (7857, [7856]); (7859, [7858]);
   (7861, [7860]); (7863, [7862]); (7865, [7864]); (7867, [7866]);
   (7869, [7868]); (7871, [7870]); (7873, [7872]); (7875, [7874]);
   (7877, [7876]); (7879, [7878]); (7881, [7880]); (7883, [7882]);
   (7885, [7884]); (7887, [7886]); (7889, [7888]); (7891, [7890]);
   (7893, [7892]); (7895, [7894]); (7897, [7896]); (7899, [7898]);
   (7901, [7900]); (7903, [7902]); (7905, [7904]); (7907, [7906]);
   (7909, [7908]); (7911, [7910]); (7913, [7912]); (7915, [7914]);
   (7917, [7916]); (7919, [7918]); (7921, [7920]); (7923, [7922]);
   (7925, [7924]); (7927, [7926]); (7929, [7928]); (7931, [7930]);
   (7933, [7932]); (7935, [7934]); (7936, [7944]); (7937, [7945]);
   (7938, [7946]); (7939, [7947]); (7940, [7948]); (7941, [7949]);
   (7942, [7950]); (7943, [7951]); (7952, [7960]); (7953, [7961]);
   (7954, [7962]); (7955, [7963]); (7956, [7964]); (7957, [7965]);
   (7968, [7976]); (7969, [7977]); (7970, [7978]); (7971, [7979]);
   (7972, [7980]); (7973, [7981]); (7974, [7982]); (7975, [7983]);
   (7984, [7992]); (7985, [7993]); (7986, [7994]); (7987, [7995]);
   (7988, [7996]); (7989, [7997]); (7990, [7998]); (7991, [7999]);
   (8000, [8008]); (8001, [8009]); (8002, [8010]); (8003, [8011]);
   (8004, [8012]); (8005, [8013]); (8016, [933; 787]); (8017, [8025]);
   (8018, [933; 787; 768]); (8019, [8027]); (8020, [933; 787; 769]);
   (8021, [8029]); (8022, [933; 787; 834]); (8023, [8031]); (8032, [8040]);
   (8033, [8041]); (8034, [8042]); (8035, [8043]); (8036, [8044]);
   (8037, [8045]); (8038, [8046]); (8039, [8047]); (8048, [8122]);
   (8049, [8123]); (8050, [8136]); (8051, [8137]); (8052, [8138]);
   (8053, [8139]); (8054, [8154]); (8055, [8155]); (8056, [8184]);
   (8057, [8185]); (8058, [8170]); (8059, [8171]); (8060, [8186]);
   (8061, [8187]); (8064, [7944; 921]); (8065, [7945; 921]);
   (8066, [7946; 921]); (8067, [7947; 921]); (8068, [7948; 921]);
   (8069, [7949; 921]); (8070, [7950; 921]); (8071, [7951; 921]);
   (8072, [7944; 921]); (8073, [7945; 921]); (8074, [7946; 921]);
   (8075, [7947; 921]); (8076, [7948; 921]); (8077, [7949; 921]);
   (8078, [7950; 921]); (8079, [7951; 921]); (8080, [7976; 921]);
   (8081, [7977; 921]); (8082, [7978; 921]); (8083, [7979; 921]);
   (8084, [7980; 921]); (8085, [7981; 921]); (8086, [7982; 921]);
   (8087, [7983; 921]); (8088, [7976; 921]); (8089, [7977; 921]);
   (8090, [7978; 921]); (8091, [7979; 921]); (8092, [7980; 921]);
   (8093, [7981; 921]); (8094, [7982; 921]); (8095, [7983; 921]);
   (8096, [8040; 921]); (8097, [8041; 921]); (8098, [8042; 921]);
   (8099, [8043; 921]); (8100, [8044; 921]); (8101, [8045; 921]);
   (8102, [8046; 921]); (8103, [8047; 921]); (8104, [8040; 921]);
   (8105, [8041; 921]); (8106, [8042; 921]); (8107, [8043; 921]);
   (8108, [8044; 921]); (8109, [8045; 921]); (8110, [8046; 921]);
   (8111, [8047; 921]); (8112, [8120]); (8113, [8121]); (8114, [8122; 921]);
   (8115, [913; 921]); (8116, [902; 921]); (8118, [913; 834]);
   (8119, [913; 834; 921]); (8124, [913; 921]); (8126, [921]);
   (8130, [8138; 921]); (8131, [919; 921]); (8132, [905; 921]);
   (8134, [919; 834]); (8135, [919; 834; 921]); (8140, [919; 921]);
   (8144, [8152]); (8145, [8153]); (8146, [921; 776; 768]);
   (8147, [921; 776; 769]); (8150, [921; 834]); (8151, [921; 776; 834]);
   (8160, [8168]); (8161, [8169]); (8162, [933; 776; 768]);
   (8163, [933; 776; 769]); (8164, [929; 787]); (8165, [8172]);
   (8166, [933; 834]); (8167, [933; 776; 834]); (8178, [8186; 921]);
   (8179, [937; 921]); (8180, [911; 921]); (8182, [937; 834]);
   (8183, [937; 834; 921]); (8188, [937; 921]); (8526, [8498]);
   (8560, [8544]); (8561, [8545]); (8562, [8546]); (8563, [8547]);
   (8564, [8548]); (8565, [8549]); (8566, [8550]); (8567, [8551]);
   (8568, [8552]); (8569, [8553]); (8570, [8554]); (8571, [8555]);
   (8572, [8556]); (8573, [8557]); (8574, [8558]); (8575, [8559]);
   (8580, [8579]); (9424, [9398]); (9425, [9399]); (9426, [9400]);
   (9427, [9401]); (9428, [9402]); (9429, [9403]); (9430, [9404]);
   (9431, [9405]); (9432, [9406]); (9433, [9407]); (9434, [9408]);
   (9435, [9409]); (9436, [9410]); (9437, [9411]); (9438, [9412]);
   (9439, [9413]); (9440, [9414]); (9441, [9415]); (9442, [9416]);
   (9443, [9417]); (9444, [9418]); (9445, [9419]); (9446, [9420]);
   (9447, [9421]); (9448, [9422]); (9449, [9423]); (11312, [11264]);
   (11313, [11265]); (11314, [11266]); (11315, [11267]); (11316, [11268]);
   (11317, [11269]); (11318, [11270]); (11319, [11271]); (11320, [11272]);
   (11321, [11273]); (11322, [11274]); (11323, [11275]); (11324, [11276]);
   (11325, [11277]); (11326, [11278]); (11327, [11279]); (11328, [11280]);
   (11329, [11281]); (11330, [11282]); (11331, [11283]); (11332, [11284]);
   (11333, [11285]); (11334, [11286]); (11335, [11287]); (11336, [11288]);
   (11337, [11289]); (11338, [11290]); (11339, [11291]); (11340, [11292]);
   (11341, [11293]); (11342, [11294]); (11343, [11295]); (11344, [11296]);
   (11345, [11297]); (11346, [11298]); (11347, [11299]); (11348, [11300]);
   (11349, [11301]); (11350, [11302]); (11351, [11303]); (11352, [11304]);
   (11353, [11305]); (11354, [11306]); (11355, [11307]); (11356, [11308]);
   (11357, [11309]); (11358, [11310]); (11359, [11311]); (11361, [11360]);
   (11365, [570]); (11366, [574]); (11368, [11367]); (11370, [11369]);
   (11372, [11371]); (11379, [11378]); (11382, [11381]); (11393, [11392]);
   (11395, [11394]); (11397, [11396]); (11399, [11398]); (11401, [11400]);
   (11403, [11402]); (11405, [11404]); (11407, [11406]); (11409, [11408]);
   (11411, [11410]); (11413, [11412]); (11415, [11414]); (11417, [11416]);
   (11419, [11418]); (11421, [11420]); (11423, [11422]); (11425, [11424]);
   (11427, [11426]); (11429, [11428]); (11431, [11430]); (11433, [11432]);
   (11435, [11434]); (11437, [11436]); (11439, [11438]); (11441, [11440]);
   (11443, [11442]); (11445, [11444]); (11447, [11446]); (11449, [11448]);
   (11451, [11450]); (11453, [11452]); (11455, [11454]); (11457, [11456]);
   (11459, [11458]); (11461, [11460]); (11463, [11462]); (11465, [11464]);
   (11467, [11466]); (11469, [11468]); (11471, [11470]); (11473, [11472]);
   (11475, [11474]); (11477, [11476]); (11479, [11478]); (11481, [11480]);
   (11483, [11482]); (11485, [11484]); (11487, [11486]); (11489, [11488]);
   (11491, [11490]); (11500, [11499]); (11502, [11501]); (11507, [11506]);
   (11520, [4256]); (11521, [4257]); (11522, [4258]); (11523, [4259]);
   (11524, [4260]); (11525, [4261]); (11526, [4262]); (11527, [4263]);
   (11528, [4264]); (11529, [4265]); (11530, [4266]); (11531, [4267]);
   (11532, [4268]); (11533, [4269]); (11534, [4270]); (11535, [4271]);
   (11536, [4272]); (11537, [4273]); (11538, [4274]); (11539, [4275]);
   (11540, [4276]); (11541, [4277]); (11542, [4278]); (11543, [4279]);
   (11544, [4280]); (11545, [4281]); (11546, [4282]); (11547, [4283]);
   (11548, [4284]); (11549, [4285]); (11550, [4286]); (11551, [4287]);
   (11552, [4288]); (11553, [4289]); (11554, [4290]); (11555, [4291]);
   (11556, [4292]); (11557, [4293]); (11559, [4295]); (11565, [4301]);
   (42561, [42560]); (42563, [42562]); (42565, [42564]); (42567, [42566]);
   (42569, [42568]); (42571, [42570]); (42573, [42572]); (42575, [42574]);
   (42577, [42576]); (42579, [42578]); (42581, [42580]); (42583, [42582]);
   (42585, [42584]); (42587, [42586]); (42589, [42588]); (42591, [42590]);
   (42593, [42592]); (42595, [42594]); (42597, [42596]); (42599, [42598]);
   (42601, [42600]); (42603, [42602]); (42605, [42604]); (42625, [42624]);
   (42627, [42626]); (42629, [42628]); (42631, [42630]); (42633, [42632]);
   (42635, [42634]); (42637, [42636]); (42639, [42638]); (42641, [42640]);
   (42643, [42642]); (42645, [42644]); (42647, [42646]); (42649, [42648]);
   (42651, [42650]); (42787, [42786]); (42789, [42788]); (42791, [42790]);
   (42793, [42792]); (42795, [42794]); (42797, [42796]); (42799, [42798]);
   (42803, [42802]); (42805, [42804]); (42807, [42806]); (42809, [42808]);
   (42811, [42810]); (42813, [42812]); (42815, [42814]); (42817, [42816]);
   (42819, [42818]); (42821, [42820]); (42823, [42822]); (42825, [42824]);
   (42827, [42826]); (42829, [42828]); (42831, [42830]); (42833, [42832]);
   (42835, [42834]); (42837, [42836]); (42839, [42838]); (42841, [42840]);
   (42843, [42842]); (42845, [42844]); (42847, [42846]); (42849, [42848]);
   (42851, [42850]); (42853, [42852]); (42855, [42854]); (42857, [42856]);
   (42859, [42858]); (42861, [42860]); (42863, [42862]); (42874, [42873]);
   (42876, [42875]); (42879, [42878]); (42881, [42880]); (42883, [42882]);
   (42885, [42884]); (42887, [42886]); (42892, [42891]); (42897, [42896]);
   (42899, [42898]); (42900, [42948]); (42903, [42902]); (42905, [42904]);
   (42907, [42906]); (42909, [42908]); (42911, [42910]); (42913, [42912]);
   (42915, [42914]); (42917, [42916]); (42919, [42918]); (42921, [42920]);
   (42933, [42932]); (42935, [42934]); (42937, [42936]); (42939, [42938]);
   (42941, [42940]); (42943, [42942]); (42945, [42944]); (42947, [42946]);
   (42952, [42951]); (42954, [42953]); (42961, [42960]); (42967, [42966]);
   (42969, [42968]); (42998, [42997]); (43859, [42931]); (43888, [5024]);
   (43889, [5025]); (43890, [5026]); (43891, [5027]); (43892, [5028]);
   (43893, [5029]); (43894, [5030]); (43895, [5031]); (43896, [5032]);
   (43897, [5033]); (43898, [5034]); (43899, [5035]); (43900, [5036]);
   (43901, [5037]); (43902, [5038]); (43903, [5039]); (43904, [5040]);
   (43905, [5041]); (43906, [5042]); (43907, [5043]); (43908, [5044]);
   (43909, [5045]); (43910, [5046]); (43911, [5047]); (43912, [5048]);
   (43913, [5049]); (43914, [5050]); (43915, [5051]); (43916, [5052]);
   (43917, [5053]); (43918, [5054]); (43919, [5055]); (43920, [5056]);
   (43921, [5057]); (43922, [5058]); (43923, [5059]); (43924, [5060]);
   (43925, [5061]); (43926, [5062]); (43927, [5063]); (43928, [5064]);
   (43929, [5065]); (43930, [5066]); (43931, [5067]); (43932, [5068]);
   (43933, [5069]); (43934, [5070]); (43935, [5071]); (43936, [5072]);
   (43937, [5073]); (43938, [5074]); (43939, [5075]); (43940, [5076]);
   (43941, [5077]); (43942, [5078]); (43943, [5079]); (43944, [5080]);
   (43945, [5081]); (43946, [5082]); (43947, [5083]); (43948, [5084]);
   (43949, [5085]); (43950, [5086]); (43951, [5087]); (43952, [5088]);
   (43953, [5089]); (43954, [5090]); (43955, [5091]); (43956, [5092]);
   (43957, [5093]); (43958, [5094]); (43959, [5095]); (43960, [5096]);
   (43961, [5097]); (43962, [5098]); (43963, [5099]); (43964, [5100]);
   (43965, [5101]); (43966, [5102]); (43967, [5103]); (64256, [70; 70]);
   (64257, [70; 73]); (64258, [70; 76]); (64259, [70; 70; 73]);
   (64260, [70; 70; 76]); (64261, [83; 84]); (64262, [83; 84]);
   (64275, [1348; 1350]); (64276, [1348; 1333]); (64277, [1348; 1339]);
   (64278, [1358; 1350]); (64279, [1348; 1341]); (65345, [65313]);
   (65346, [65314]); (65347, [65315]); (65348, [65316]); (65349, [65317]);
   (65350, [65318]); (65351, [65319]); (65352, [65320]); (65353, [65321]);
   (65354, [65322]); (65355, [65323]); (65356, [65324]); (65357, [65325]);
   (65358, [65326]); (65359, [65327]); (65360, [65328]); (65361, [65329]);
   (65362, [65330]); (65363, [65331]); (65364, [65332]); (65365, [65333]);
   (65366, [65334]); (65367, [65335]); (65368, [65336]); (65369, [65337]);
   (65370, [65338]); (66600, [66560]); (66601, [66561]); (66602, [66562]);
   (66603, [66563]); (66604, [66564]); (66605, [66565]); (66606, [66566]);
   (66607, [66567]); (66608, [66568]); (66609, [66569]); (66610, [66570]);
   (66611, [66571]); (66612, [66572]); (66613, [66573]); (66614, [66574]);
   (66615, [66575]); (66616, [66576]); (66617, [66577]); (66618, [66578]);
   (66619, [66579]); (66620, [66580]); (66621, [66581]); (66622, [66582]);
   (66623, [66583]); (66624, [66584]); (66625, [66585]); (66626, [66586]);
   (66627, [66587]); (66628, [66588]); (66629, [66589]); (66630, [66590]);
   (66631, [66591]); (66632, [66592]); (66633, [66593]); (66634, [66594]);
   (66635, [66595]); (66636, [66596]); (66637, [66597]); (66638, [66598]);
   (66639, [66599]); (66776, [66736]); (66777, [66737]); (66778, [66738]);
   (66779, [66739]); (66780, [66740]); (66781, [66741]); (66782, [66742]);
   (66783, [66743]); (66784, [66744]); (66785, [66745]); (66786, [66746]);
   (66787, [66747]); (66788, [66748]); (66789, [66749]); (66790, [66750]);
   (66791, [66751]); (66792, [66752]); (66793, [66753]); (66794, [66754]);
   (66795, [66755]); (66796, [66756]); (66797, [66757]); (66798, [66758]);
   (66799, [66759]); (66800, [66760]); (66801, [66761]); (66802, [66762]);
   (66803, [66763]); (66804, [66764]); (66805, [66765]); (66806, [66766]);
   (66807, [66767]); (66808, [66768]); (66809, [66769]); (66810, [66770]);
   (66811, [66771]); (66967, [66928]); (66968, [66929]); (66969, [66930]);
   (66970, [66931]); (66971, [66932]); (66972, [66933]); (66973, [66934]);
   (66974, [66935]); (66975, [66936]); (66976, [66937]); (66977, [66938]);
   (66979, [66940]); (66980, [66941]); (66981, [66942]); (66982, [66943]);
   (66983, [66944]); (66984, [66945]); (66985, [66946]); (66986, [66947]);
   (66987, [66948]); (66988, [66949]); (66989, [66950]); (66990, [66951]);
   (66991, [66952]); (66992, [66953]); (66993, [66954]); (66995, [66956]);
   (66996, [66957]); (66997, [66958]); (66998, [66959]); (66999, [66960]);
   (67000, [66961]); (67001, [66962]); (67003, [66964]); (67004, [66965]);
   (68800, [68736]); (68801, [68737]); (68802, [68738]); (68803, [68739]);
   (68804, [68740]); (68805, [68741]); (68806, [68742]); (68807, [68743]);
   (68808, [68744]); (68809, [68745]); (68810, [68746]); (68811, [68747]);
   (68812, [68748]); (68813, [68749]); (68814, [68750]); (68815, [68751]);
   (68816, [68752]); (68817, [68753]); (68818, [68754]); (68819, [68755]);
   (68820, [68756]); (68821, [68757]); (68822, [68758]); (68823, [68759]);
   (68824, [68760]); (68825, [68761]); (68826, [68762]); (68827, [68763]);
   (68828, [68764]); (68829, [68765]); (68830, [68766]); (68831, [68767]);
   (68832, [68768]); (68833, [68769]); (68834, [68770]); (68835, [68771]);
   (68836, [68772]); (68837, [68773]); (68838, [68774]); (68839, [68775]);
   (68840, [68776]); (68841, [68777]); (68842, [68778]); (68843, [68779]);
   (68844, [68780]); (68845, [68781]); (68846, [68782]); (68847, [68783]);
   (68848, [68784]); (68849, [68785]); (68850, [68786]); (71872, [71840]);
   (71873, [71841]); (71874, [71842]); (71875, [71843]); (71876, [71844]);
   (71877, [71845]); (71878, [71846]); (71879, [71847]); (71880, [71848]);
   (71881, [71849]); (71882, [71850]); (71883, [71851]); (71884, [71852]);
   (71885, [71853]); (71886, [71854]); (71887, [71855]); (71888, [71856]);
   (71889, [71857]); (71890, [71858]); (71891, [71859]); (71892, [71860]);
   (71893, [71861]); (71894, [71862]); (71895, [71863]); (71896, [71864]);
   (71897, [71865]); (71898, [71866]); (71899, [71867]); (71900, [71868]);
   (71901, [71869]); (71902, [71870]); (71903, [71871]); (93792, [93760]);
   (93793, [93761]); (93794, [93762]); (93795, [93763]); (93796, [93764]);
   (93797, [93765]); (93798, [93766]); (93799, [93767]); (93800, [93768]);
   (93801, [93769]); (93802, [93770]); (93803, [93771]); (93804, [93772]);
   (93805, [93773]); (93806, [93774]); (93807, [93775]); (93808, [93776]);
   (93809, [93777]); (93810, [93778]); (93811, [93779]); (93812, [93780]);
   (93813, [93781]); (93814, [93782]); (93815, [93783]); (93816, [93784]);
   (93817, [93785]); (93818, [93786]); (93819, [93787]); (93820, [93788]);
   (93821, [93789]); (93822, [93790]); (93823, [93791]); (125218, [125184]);
   (125219, [125185]); (125220, [125186]); (125221, [125187]);
   (125222, [125188]); (125223, [125189]); (125224, [125190]);
   (125225, [125191]); (125226, [125192]); (125227, [125193]);
   (125228, [125194]); (125229, [125195]); (125230, [125196]);
   (125231, [125197]); (125232, [125198]); (125233, [125199]);
   (125234, [125200]); (125235, [125201]); (125236, [125202]);
   (125237, [125203]); (125238, [125204]); (125239, [125205]);
   (125240, [125206]); (125241, [125207]); (125242, [125208]);
   (125243, [125209]); (125244, [125210]); (125245, [125211]);
   (125246, [125212]); (125247, [125213]); (125248, [125214]);
   (125249, [125215]); (125250, [125216]); (125251, [125217])].

Fixpoint assoc (c : Z) (table : list (Z * list Z)) : option (list Z) :=
  match table with
  | [] => None
  | (k, to) :: table' => if c =? k then Some to else assoc c table'
  end.

(** [c.upper()] for one character. *)
Definition upper1 (c : Z) : str :=
  if is_ascii c then [upper_char c]
  else match assoc c upper_table with
       | Some to => to
       | None => [c]
       end.

(** [s.upper()]: every character by itself. *)
Definition upper (s : str) : str := flat_map upper1 s.

(** [str.isspace] on one code point. *)
Definition is_space (c : Z) : bool :=
  ((9 <=? c) && (c <=? 13)) || ((28 <=? c) && (c <=? 32))
  || (c =? 133) || (c =? 160) || (c =? 5760)
  || ((8192 <=? c) && (c <=? 8202))
  || (c =? 8232) || (c =? 8233) || (c =? 8239) || (c =? 8287) || (c =? 12288).

Fixpoint lstrip (s : str) : str :=
  match s with
  | [] => []
  | c :: s' => if is_space c then lstrip s' else s
  end.

Definition rstrip (s : str) : str := rev (lstrip (rev s)).

(** [s.strip()]. *)
Definition strip (s : str) : str := rstrip (lstrip s).

(** [s.split(sep)] for a separator of one character; it has one field
    more than [s] has separators, so [''.split(sep)] is [['']]. *)
Fixpoint split (sep : Z) (s : str) : list str :=
  match s with
  | [] => [[]]
  | c :: s' =>
      if c =? sep then [] :: split sep s'
      else match split sep s' with
           | [] => [[c]]
           | w :: ws => (c :: w) :: ws
           end
  end.

(** [sep.join(chunks)]. *)
Fixpoint join (sep : Z) (chunks : list str) : str :=
  match chunks with
  | [] => []
  | [w] => w
  | w :: ws => w ++ sep :: join sep ws
  end.

(** UTF-8 of one code point. *)
Definition encode_char (c : Z) : result bytes :=
  if c <? 128 then Ok [c]
  else if c <? 2048 then
    Ok [Z.lor 192 (Z.shiftr c 6); Z.lor 128 (Z.land c 63)]
  else if (55296 <=? c) && (c <=? 57343) then Raise UnicodeEncodeError
  else if c <? 65536 then
    Ok [Z.lor 224 (Z.shiftr c 12); Z.lor 128 (Z.land (Z.shiftr c 6) 63);
        Z.lor 128 (Z.land c 63)]
  else
    Ok [Z.lor 240 (Z.shiftr c 18); Z.lor 128 (Z.land (Z.shiftr c 12) 63);
        Z.lor 128 (Z.land (Z.shiftr c 6) 63); Z.lor 128 (Z.land c 63)].

(** [s.encode()]. *)
Definition encode (s : str) : result bytes :=
  chunks <- mapM encode_char s ;; Ok (concat chunks).

Definition between (lo hi b : Z) : bool := (lo <=? b) && (b <=? hi).
Definition cont (b : Z) : Z := Z.land b 63.

(** [b.decode()]: strict UTF-8 (no overlong forms, no surrogates, nothing
    above U+10FFFF). *)
Fixpoint decode (b : bytes) : result str :=
  match b with
  | [] => Ok []
  | b0 :: r0 =>
      if between 0 127 b0 then s <- decode r0 ;; Ok (b0 :: s)
      else match r0 with
      | [] => Raise UnicodeDecodeError
      | b1 :: r1 =>
          if between 194 223 b0 && between 128 191 b1 then
            s <- decode r1 ;;
            Ok (Z.lor (Z.shiftl (Z.land b0 31) 6) (cont b1) :: s)
          else match r1 with
          | [] => Raise UnicodeDecodeError
          | b2 :: r2 =>
              if ((b0 =? 224) && between 160 191 b1
                  || between 225 236 b0 && between 128 191 b1
                  || (b0 =? 237) && between 128 159 b1
                  || between 238 239 b0 && between 128 191 b1)
                 && between 128 191 b2 then
                s <- decode r2 ;;
                Ok (Z.lor (Z.shiftl (Z.land b0 15) 12)
                      (Z.lor (Z.shiftl (cont b1) 6) (cont b2)) :: s)
              else match r2 with
              | [] => Raise UnicodeDecodeError
              | b3 :: r3 =>
                  if ((b0 =? 240) && between 144 191 b1
                      || between 241 243 b0 && between 128 191 b1
                      || (b0 =? 244) && between 128 143 b1)
                     && between 128 191 b2 && between 128 191 b3 then
                    s <- decode r3 ;;
                    Ok (Z.lor (Z.shiftl (Z.land b0 7) 18)
                          (Z.lor (Z.shiftl (cont b1) 12)
                             (Z.lor (Z.shiftl (cont b2) 6) (cont b3))) :: s)
                  else Raise UnicodeDecodeError
              end
          end
      end
  end.

(** ** Module constants *)

Definition ORD_A : Z := 65.
Definition WILDCARD : str := lit "*".
Definition ZERO : Z := 0.
Definition BYTE_ZERO : bytes := [ZERO].

Definition NB_NAME_PURPOSE_WORKSTATION : Z := 0x00.
Definition NB_NAME_PURPOSE_MESSENGER : Z := 0x03.
Definition NB_NAME_PURPOSE_FILE_SERVER : Z := 0x20.
Definition NB_NAME_PURPOSE_DOMAIN_MASTER : Z := 0x1B.

Definition NB_NAME_FULL_LEN : Z := 16.
Definition NB_NAME_FULL_LEN_BYTES : Z := NB_NAME_FULL_LEN * 2.
Definition NB_NAME_VALUE_LEN : Z := NB_NAME_FULL_LEN - 1.

(** [b.ljust(width, fill)] and [NB_NAME_FMT.format(s)], i.e. ["{:15}"]:
    both pad on the right and leave a longer argument as it is. *)
Definition ljust (l : list Z) (width : Z) (fill : Z) : list Z :=
  l ++ repeat fill (Z.to_nat (width - len l)).
Definition NB_NAME_FMT_format (s : str) : str := ljust s NB_NAME_VALUE_LEN 32.

Definition NB_NAME_WILDCARD_PADDED : bytes :=
  ljust (lit "*") NB_NAME_VALUE_LEN ZERO.

(** ** binascii *)

Definition hex_digit (d : Z) : Z := if d <? 10 then 48 + d else 87 + d.

(** [binascii.hexlify(b)]: two lower-case hexadecimal digits a byte. *)
Definition hexlify (b : bytes) : bytes :=
  concat (map (fun x => [hex_digit (Z.shiftr x 4); hex_digit (Z.land x 15)]) b).

(** ** class NBName *)

Module NBName.

Record t : Type := mk {
  value : str;
  scope : str;
  purpose : bytes
}.

Fixpoint str_eqb (a b : str) : bool :=
  match a, b with
  | [], [] => true
  | x :: a', y :: b' => (x =? y) && str_eqb a' b'
  | _, _ => false
  end.

(** [NBName(value, scope, purpose)]; [scope=None] is [None]. *)
Definition __init__ (value : str) (scope : option str) (purpose : Z) : result t :=
  if len value >? NB_NAME_VALUE_LEN then Raise (ValueError NameTooLong)
  else
    let value' := upper value in
    let scope' := match scope with
                  | Some (c :: s) => upper (c :: s)
                  | _ => []
                  end in
    purpose' <- mk_bytes [purpose] ;;
    Ok (mk value' scope' purpose').

Definition encode_byte (value : Z) : result bytes :=
  let hi_nibble := Z.land 0x0F (Z.shiftr value 4) in
  let lo_nibble := Z.land 0x0F value in
  mk_bytes [hi_nibble + ORD_A; lo_nibble + ORD_A].

Definition _encode_value (self : t) : result bytes :=
  padded <- (if str_eqb (value self) WILDCARD then Ok NB_NAME_WILDCARD_PADDED
             else encode (NB_NAME_FMT_format (value self))) ;;
  let padded := padded ++ purpose self in
  pairs <- mapM encode_byte padded ;;
  Ok (concat pairs).

(** The items of [chunks] in [to_bytes]: the encoded value is [bytes], the
    labels of the scope are [str]. *)
Inductive chunk : Type :=
| BytesChunk (b : bytes)
| StrChunk (s : str).

Definition pack_item (item : chunk) : result bytes :=
  item <- match item with
          | StrChunk s => encode s
          | BytesChunk b => Ok b
          end ;;
  n <- mk_bytes [len item] ;;
  Ok (n ++ item).

Definition to_bytes (self : t) : result bytes :=
  v <- _encode_value self ;;
  let chunks :=
    [BytesChunk v]
    ++ match scope self with
       | [] => []
       | _ => map StrChunk (split 46 (scope self))
       end in
  packed <- mapM pack_item chunks ;;
  Ok (concat packed ++ BYTE_ZERO).

Definition decode_word (hi_byte lo_byte : Z) : result bytes :=
  let hi_nibble := Z.shiftl (hi_byte - ORD_A) 4 in
  let lo_nibble := lo_byte - ORD_A in
  mk_bytes [Z.lor hi_nibble lo_nibble].

(** [decode_bytes]: the generator visits [i = 0, 2, 4, ...] and reads
    [data[i]] and [data[i + 1]]; on an odd length the last read is out of
    range. *)
Fixpoint decode_bytes (data : bytes) : result bytes :=
  match data with
  | [] => Ok []
  | [_] => Raise IndexError
  | hi :: lo :: rest =>
      w <- decode_word hi lo ;;
      ws <- decode_bytes rest ;;
      Ok (w ++ ws)
  end.

(** [i == s] for an [int] and a [str]: neither side implements the
    comparison, so the result is [False]. *)
Definition int_eq_str (i : Z) (s : str) : bool := false.

Definition decode_value_and_purpose (data : bytes) : result (str * Z) :=
  let value := slice_to data NB_NAME_VALUE_LEN in
  first <- index value 0 ;;
  value <- (if int_eq_str first WILDCARD then Ok WILDCARD
            else s <- decode value ;; Ok (strip s)) ;;
  purpose <- index data NB_NAME_VALUE_LEN ;;
  Ok (value, purpose).

(** The [while offset < len(data)] loop of [decode_scope]; every turn
    moves [offset] forward, so [len(data)] turns are enough. *)
Fixpoint decode_scope_loop (fuel : nat) (data : bytes) (offset : Z)
    (chunks : list str) : result (list str) :=
  if offset <? len data then
    match fuel with
    | O => Ok chunks
    | S fuel' =>
        length <- index data offset ;;
        let offset := offset + 1 in
        chunk <- decode (slice data offset (offset + length)) ;;
        decode_scope_loop fuel' data (offset + length) (chunks ++ [chunk])
    end
  else Ok chunks.

Definition decode_scope (data : bytes) : result str :=
  match data with
  | [] => Ok []
  | _ =>
      chunks <- decode_scope_loop (List.length data) data 0 [] ;;
      Ok (join 46 chunks)
  end.

Definition from_bytes (data : bytes) : result t :=
  last_byte <- index data (-1) ;;
  if negb (last_byte =? ZERO) then Raise (ValueError (RootLength last_byte))
  else
    let offset := 0 in
    length <- index data offset ;;
    let offset := offset + 1 in
    if negb (length =? NB_NAME_FULL_LEN_BYTES)
    then Raise (ValueError (NameLength length))
    else
      full_name <- decode_bytes (slice data offset (offset + length)) ;;
      vp <- decode_value_and_purpose full_name ;;
      let offset := offset + length in
      scope <- decode_scope (slice data offset (-1)) ;;
      __init__ (fst vp) (Some scope) (snd vp).

(** ["{}<{}>".format(value, hex_purpose)], then ["{}.{}".format(name, scope)]
    when the scope is not empty. *)
Definition __str__ (self : t) : result str :=
  hex_purpose <- decode (hexlify (purpose self)) ;;
  let name := value self ++ [60] ++ hex_purpose ++ [62] in
  match scope self with
  | [] => Ok name
  | _ => Ok (name ++ [46] ++ scope self)
  end.

End NBName.

(** ** NBNS messages *)

Definition NB_NS_R_REQUEST : Z := 0.
Definition NB_NS_R_RESPONSE : Z := 1.

Definition NB_NS_OPCODE_QUERY : Z := 0x0.
Definition NB_NS_OPCODE_REGISTER : Z := 0x5.
Definition NB_NS_OPCODE_RELEASE : Z := 0x6.
Definition NB_NS_OPCODE_WACK : Z := 0x7.
Definition NB_NS_OPCODE_REFRESH : Z := 0x8.
Definition NB_NS_OPCODE_ALTREFRESH : Z := 0x9.
Definition NB_NS_OPCODE_MULTIHOMED : Z := 0xF.

Definition NB_NS_NM_FLAGS_B : Z := Z.shiftl 1 0.
Definition NB_NS_NM_FLAGS_RA : Z := Z.shiftl 1 3.
Definition NB_NS_NM_FLAGS_RD : Z := Z.shiftl 1 4.
Definition NB_NS_NM_FLAGS_TC : Z := Z.shiftl 1 5.
Definition NB_NS_NM_FLAGS_AA : Z := Z.shiftl 1 6.

Definition NB_NS_RCODE_POS_RSP : Z := 0x0.

Definition NBNS_QUESTION_TYPE_NB : Z := 0x0020.
Definition NBNS_QUESTION_TYPE_NBSTAT : Z := 0x0021.
Definition NBNS_QUESTION_CLASS_IN : Z := 0x0001.

(** One ['H'] of [struct.pack('>...H', ...)]: an unsigned 16-bit integer,
    most significant byte first; [struct.error] outside [0 .. 65535]. *)
Definition pack_H (v : Z) : result bytes :=
  if (0 <=? v) && (v <=? 65535)
  then Ok [Z.shiftr v 8; Z.land v 255]
  else Raise StructError.

(** [pack('>nH', v1, ..., vn)]. *)
Definition pack_Hs (vs : list Z) : result bytes :=
  words <- mapM pack_H vs ;; Ok (concat words).

(** What a caller can hand over as [question_name]. *)
Inductive pyobj : Type :=
| PyBytes (b : bytes)
| PyNBName (n : NBName.t).

Module NBNSMessage.

(** The slots of [NBNSMessage]. *)
Record t : Type := mk {
  name_trn_id : Z;
  r : Z;
  opcode : Z;
  nm_flags : Z;
  rcode : Z;
  qdcount : Z;
  ancount : Z;
  nscount : Z;
  arcount : Z
}.

(** [flags] in [build_header]; [<<] binds tighter than [|]. *)
Definition flags (self : t) : Z :=
  Z.lor (Z.lor (Z.lor
    (Z.land 15 (rcode self))
    (Z.shiftl (Z.land 127 (nm_flags self)) 4))
    (Z.shiftl (Z.land 15 (opcode self)) 11))
    (Z.shiftl (Z.land 1 (r self)) 15).

Definition build_header (self : t) : result bytes :=
  pack_Hs [name_trn_id self; flags self; qdcount self; ancount self;
           nscount self; arcount self].

(** [to_bytes], with [self.build_body()] of the subclass as [build_body]. *)
Definition to_bytes (self : t) (build_body : result bytes) : result bytes :=
  header <- build_header self ;;
  body <- build_body ;;
  Ok (header ++ body).

End NBNSMessage.

Module NBNSRequest.

(** The slots of [NBNSMessage], in [base], and the three of [NBNSRequest]. *)
Record t : Type := mk {
  base : NBNSMessage.t;
  question_name : pyobj;
  question_type : Z;
  question_class : Z
}.

Definition __init__ (name_trn_id opcode nm_flags qdcount ancount nscount
    arcount : Z) (question_name : pyobj) (question_type question_class : Z)
  : t :=
  mk (NBNSMessage.mk name_trn_id NB_NS_R_REQUEST opcode nm_flags
        NB_NS_RCODE_POS_RSP qdcount ancount nscount arcount)
     question_name question_type question_class.

(** [a + b] where [b] is [bytes]: defined when [a] is [bytes] too. *)
Definition add_bytes (a : pyobj) (b : bytes) : result bytes :=
  match a with
  | PyBytes a' => Ok (a' ++ b)
  | PyNBName _ => Raise TypeError
  end.

Definition build_query_entry (self : t) : result bytes :=
  tail <- pack_Hs [question_type self; question_class self] ;;
  add_bytes (question_name self) tail.

Definition build_body (self : t) : result bytes := build_query_entry self.

Definition to_bytes (self : t) : result bytes :=
  NBNSMessage.to_bytes (base self) (build_body self).

End NBNSRequest.

Module NBNSNameQueryRequest.

Definition __init__ (name_trn_id : Z) (question_name : pyobj)
    (broadcast : bool) : NBNSRequest.t :=
  let nm_flags :=
    Z.lor NB_NS_NM_FLAGS_RD (if broadcast then NB_NS_NM_FLAGS_B else 0) in
  NBNSRequest.__init__ name_trn_id NB_NS_OPCODE_QUERY nm_flags
    0x0001 0x0000 0x0000 0x0000
    question_name NBNS_QUESTION_TYPE_NB NBNS_QUESTION_CLASS_IN.

End NBNSNameQueryRequest.

(** * Vocabulary of the statements *)

(** The two letters that [encode_byte] makes of a byte. *)
Definition letters (value : Z) : bytes :=
  [Z.land 15 (Z.shiftr value 4) + ORD_A; Z.land 15 value + ORD_A].

(** A byte of ['A'..'P']. *)
Definition is_letter (b : Z) : bool := (65 <=? b) && (b <=? 80).

(** [decode_word] gives [v] back from the letters of [v]. *)
Definition word_round_trip (v : Z) : bool :=
  match letters v with
  | [hi; lo] => match NBName.decode_word hi lo with
                | Ok [w] => w =? v
                | _ => false
                end
  | _ => false
  end.

(** The fifteen bytes that [_encode_value] puts in front of the purpose
    byte, for an ASCII value. *)
Definition padding (v : str) : bytes :=
  if NBName.str_eqb v WILDCARD then NB_NAME_WILDCARD_PADDED
  else NB_NAME_FMT_format v.

(** A scope label on the wire. *)
Definition wire_label (l : str) : bytes := len l :: l.

(** The labels that [to_bytes] takes from a scope. *)
Definition labels_of (s : str) : list str :=
  match s with
  | [] => []
  | _ => split 46 s
  end.

Definition short_label (bound : Z) (l : str) : bool := len l <=? bound.

(** The two [ValueError]s of [from_bytes], which the specification calls
    MalformedNameError. *)
Definition MalformedNameError (e : exn) : bool :=
  match e with
  | ValueError (RootLength _) | ValueError (NameLength _) => true
  | _ => false
  end.

(** What the format ['H'] accepts, and its two bytes. *)
Definition fits_H (v : Z) : bool := (0 <=? v) && (v <=? 65535).
Definition wire_H (v : Z) : bytes := [Z.shiftr v 8; Z.land v 255].

(** The fields of the header that [struct.pack] receives as they are. *)
Definition words_fit (m : NBNSMessage.t) : bool :=
  fits_H (NBNSMessage.name_trn_id m) && fits_H (NBNSMessage.qdcount m)
  && fits_H (NBNSMessage.ancount m) && fits_H (NBNSMessage.nscount m)
  && fits_H (NBNSMessage.arcount m).

(** The value of a lower-case hexadecimal digit. *)
Definition hex_value (c : Z) : Z := if c <? 58 then c - 48 else c - 87.

Definition is_hex_digit (c : Z) : bool :=
  ((48 <=? c) && (c <=? 57)) || ((97 <=? c) && (c <=? 102)).

(** [hexlify] of one byte is two digits that give the byte back. *)
Definition hex_round_trip (p : Z) : bool :=
  match hexlify [p] with
  | [h; l] => is_hex_digit h && is_hex_digit l
              && (16 * hex_value h + hex_value l =? p)
  | _ => false
  end.

(** [encode_byte] gives two letters back from what [decode_word] makes of
    them. *)
Definition letters_round_trip (hi lo : Z) : bool :=
  match NBName.decode_word hi lo with
  | Ok [w] => is_byte w
              && match NBName.encode_byte w with
                 | Ok [hi'; lo'] => (hi' =? hi) && (lo' =? lo)
                 | _ => false
                 end
  | _ => false
  end.

(** The fifteen characters that a wildcard name decodes to. *)
Definition decoded_wildcard : str := 42 :: repeat 0 14.

(** The fields that the flags word of a header has room for. *)
Definition flags_fit_fields (m : NBNSMessage.t) : bool :=
  between 0 15 (NBNSMessage.rcode m) && between 0 127 (NBNSMessage.nm_flags m)
  && between 0 15 (NBNSMessage.opcode m) && between 0 1 (NBNSMessage.r m).

(** What [str.upper()] relies on in an entry of the table: the character
    is no white space, and its image has one to three characters, none of
    them white space, and is its own upper case. *)
Definition upper_entry_ok (entry : Z * list Z) : bool :=
  let (c, to) := entry in
  negb (is_space c) && NBName.str_eqb (upper to) to
  && (1 <=? len to) && (len to <=? 3)
  && forallb (fun x => negb (is_space x)) to.

(** The code points of a [str]. *)
Definition is_code_point (c : Z) : bool := (0 <=? c) && (c <=? 0x10FFFF).
Definition is_str (s : str) : bool := forallb is_code_point s.

(** A [str] whose UTF-8 form has at most [bound] bytes. *)
Definition fits_bytes (bound : Z) (s : str) : bool :=
  is_str s
  && match encode s with
     | Ok b => len b <=? bound
     | Raise _ => false
     end.

(** * Properties *)

(** ** The result monad and Python sequences *)

Lemma bind_Ok {A B : Type} (a : A) (k : A -> result B) :
  bind (Ok a) k = k a.
Proof. reflexivity. Qed.

Lemma mapM_total {A B : Type} (f : A -> result B) (g : A -> B) (xs : list A) :
  (forall x, In x xs -> f x = Ok (g x)) -> mapM f xs = Ok (map g xs).
Proof.
  induction xs as [|x xs IH]; intros Hf; simpl.
  - reflexivity.
  - rewrite (Hf x (or_introl eq_refl)). simpl.
    rewrite IH by (intros y Hy; apply Hf; right; exact Hy).
    reflexivity.
Qed.

Lemma len_nil {A : Type} : len (@nil A) = 0.
Proof. reflexivity. Qed.

Lemma len_cons {A : Type} (a : A) (l : list A) : len (a :: l) = 1 + len l.
Proof. unfold len. simpl List.length. lia. Qed.

Lemma len_app {A : Type} (l1 l2 : list A) : len (l1 ++ l2) = len l1 + len l2.
Proof. unfold len. rewrite length_app. lia. Qed.

Lemma len_nonneg {A : Type} (l : list A) : 0 <= len l.
Proof. unfold len. lia. Qed.

Lemma mk_bytes_ok (items : list Z) :
  forallb is_byte items = true -> mk_bytes items = Ok items.
Proof. intros H. unfold mk_bytes. rewrite H. reflexivity. Qed.

Lemma is_byte_iff (b : Z) : is_byte b = true <-> 0 <= b < 256.
Proof. unfold is_byte. rewrite andb_true_iff, Z.leb_le, Z.ltb_lt. tauto. Qed.

Lemma index_head {A : Type} (a : A) (l : list A) : index (a :: l) 0 = Ok a.
Proof. reflexivity. Qed.

Lemma index_at {A : Type} (pre : list A) (a : A) (post : list A) :
  index (pre ++ a :: post) (len pre) = Ok a.
Proof.
  unfold index.
  assert (H := len_nonneg pre).
  destruct (len pre <? 0) eqn:E; [apply Z.ltb_lt in E; lia|].
  rewrite E. unfold len. rewrite Nat2Z.id.
  rewrite nth_error_app2 by lia. rewrite Nat.sub_diag. reflexivity.
Qed.

Lemma index_last {A : Type} (l : list A) (a : A) : index (l ++ [a]) (-1) = Ok a.
Proof.
  unfold index. change (-1 <? 0) with true. cbv iota.
  rewrite len_app. change (len [a]) with 1.
  assert (H := len_nonneg l).
  replace (-1 + (len l + 1)) with (len l) by lia.
  destruct (len l <? 0) eqn:E; [apply Z.ltb_lt in E; lia|].
  unfold len. rewrite Nat2Z.id.
  rewrite nth_error_app2 by lia. rewrite Nat.sub_diag. reflexivity.
Qed.

Lemma index_nil {A : Type} (i : Z) : index (@nil A) i = Raise IndexError.
Proof.
  unfold index. change (len (@nil A)) with 0.
  destruct (i <? 0) eqn:E.
  - replace (i + 0) with i by lia. rewrite E. reflexivity.
  - rewrite E. destruct (Z.to_nat i); reflexivity.
Qed.

(** [(pre + mid + post)[len(pre):len(pre) + k]] is [mid] as soon as [k]
    reaches the end of [mid] and [post] is empty, or [k] is its length. *)
Lemma slice_mid {A : Type} (pre mid post : list A) :
  slice (pre ++ mid ++ post) (len pre) (len pre + len mid) = mid.
Proof.
  unfold slice, clamp. rewrite !len_app.
  assert (H1 := len_nonneg pre). assert (H2 := len_nonneg mid).
  assert (H3 := len_nonneg post).
  destruct (len pre <? 0) eqn:E1; [apply Z.ltb_lt in E1; lia|].
  destruct (len pre + len mid <? 0) eqn:E2; [apply Z.ltb_lt in E2; lia|].
  rewrite (Z.min_l (len pre)) by lia.
  rewrite (Z.min_l (len pre + len mid)) by lia.
  replace (len pre + len mid - len pre) with (len mid) by lia.
  unfold len. rewrite !Nat2Z.id.
  rewrite skipn_app, skipn_all, Nat.sub_diag. simpl.
  rewrite firstn_app, firstn_all, Nat.sub_diag. simpl. apply app_nil_r.
Qed.


Lemma slice_drop_last {A : Type} (pre mid : list A) (a : A) :
  slice (pre ++ mid ++ [a]) (len pre) (-1) = mid.
Proof.
  unfold slice, clamp. rewrite !len_app. change (len [a]) with 1.
  assert (H1 := len_nonneg pre). assert (H2 := len_nonneg mid).
  destruct (len pre <? 0) eqn:E1; [apply Z.ltb_lt in E1; lia|].
  change (-1 <? 0) with true. cbv iota.
  rewrite Z.min_l by lia. rewrite Z.max_r by lia.
  replace (-1 + (len pre + (len mid + 1)) - len pre) with (len mid) by lia.
  unfold len. rewrite !Nat2Z.id.
  rewrite skipn_app, skipn_all, Nat.sub_diag. simpl.
  rewrite firstn_app, firstn_all, Nat.sub_diag. simpl. apply app_nil_r.
Qed.

Lemma slice_to_app {A : Type} (l post : list A) :
  slice_to (l ++ post) (len l) = l.
Proof.
  unfold slice_to.
  change (slice (l ++ post) 0 (len l))
    with (slice ([] ++ l ++ post) (len (@nil A)) (len (@nil A) + len l)).
  apply slice_mid.
Qed.

(** ** Text *)

Lemma is_ascii_iff (c : Z) : is_ascii c = true <-> 0 <= c < 128.
Proof. unfold is_ascii. rewrite andb_true_iff, Z.leb_le, Z.ltb_lt. tauto. Qed.

Lemma ascii_text_cons (c : Z) (s : list Z) :
  ascii_text (c :: s) = true <-> is_ascii c = true /\ ascii_text s = true.
Proof. unfold ascii_text. simpl. apply andb_true_iff. Qed.

Lemma ascii_text_app (s1 s2 : list Z) :
  ascii_text (s1 ++ s2) = true <-> ascii_text s1 = true /\ ascii_text s2 = true.
Proof. unfold ascii_text. rewrite forallb_app. apply andb_true_iff. Qed.

Lemma ascii_is_byte (c : Z) : is_ascii c = true -> is_byte c = true.
Proof. rewrite is_ascii_iff, is_byte_iff. lia. Qed.

Lemma ascii_text_bytes (s : list Z) :
  ascii_text s = true -> forallb is_byte s = true.
Proof.
  unfold ascii_text. rewrite !forallb_forall.
  intros H c Hc. apply ascii_is_byte, H, Hc.
Qed.

(** On ASCII text [encode] and [decode] leave the code units as they are. *)
Lemma encode_ascii (s : str) : ascii_text s = true -> encode s = Ok s.
Proof.
  intros H. unfold encode.
  rewrite (mapM_total encode_char (fun c => [c])).
  - simpl. f_equal. induction s as [|c s IH]; simpl; [reflexivity|].
    apply ascii_text_cons in H. f_equal. apply IH, H.
  - intros c Hc. unfold ascii_text in H. rewrite forallb_forall in H.
    apply H, is_ascii_iff in Hc. unfold encode_char.
    destruct (c <? 128) eqn:E; [reflexivity|]. apply Z.ltb_ge in E. lia.
Qed.

Lemma decode_ascii (b : bytes) : ascii_text b = true -> decode b = Ok b.
Proof.
  induction b as [|c b IH]; intros H; [reflexivity|].
  apply ascii_text_cons in H. destruct H as [Hc Hb].
  simpl. unfold between. apply is_ascii_iff in Hc.
  replace ((0 <=? c) && (c <=? 127)) with true
    by (symmetry; apply andb_true_iff; rewrite !Z.leb_le; lia).
  rewrite (IH Hb). reflexivity.
Qed.

Lemma str_eqb_eq (a b : str) : NBName.str_eqb a b = true <-> a = b.
Proof.
  revert b. induction a as [|x a IH]; intros [|y b]; simpl;
    try (split; [discriminate | discriminate]); [tauto|].
  rewrite andb_true_iff, Z.eqb_eq, IH. split.
  - intros [-> ->]. reflexivity.
  - intros E. injection E. tauto.
Qed.

Lemma upper_char_idem (c : Z) : upper_char (upper_char c) = upper_char c.
Proof.
  unfold upper_char.
  destruct ((97 <=? c) && (c <=? 122)) eqn:E.
  - apply andb_true_iff in E. rewrite !Z.leb_le in E.
    replace ((97 <=? c - 32) && (c - 32 <=? 122)) with false; [reflexivity|].
    symmetry. apply andb_false_iff. left. apply Z.leb_gt. lia.
  - rewrite E. reflexivity.
Qed.

Lemma upper_char_ascii (c : Z) : is_ascii c = true -> is_ascii (upper_char c) = true.
Proof.
  rewrite !is_ascii_iff. unfold upper_char.
  destruct ((97 <=? c) && (c <=? 122)) eqn:E; [|tauto].
  apply andb_true_iff in E. rewrite !Z.leb_le in E. lia.
Qed.

Lemma is_space_upper_char (c : Z) : is_space (upper_char c) = is_space c.
Proof.
  unfold upper_char.
  destruct ((97 <=? c) && (c <=? 122)) eqn:E; [|reflexivity].
  apply andb_true_iff in E. rewrite !Z.leb_le in E.
  assert (H : forall x, 65 <= x <= 122 -> is_space x = false).
  { intros x Hx. unfold is_space.
    repeat match goal with
           | |- context [?a <=? ?b] =>
               destruct (Z.leb_spec a b); try lia
           | |- context [?a =? ?b] =>
               destruct (Z.eqb_spec a b); try lia
           end;
    try reflexivity. }
  rewrite !H by lia. reflexivity.
Qed.

Lemma upper_cons (c : Z) (s : str) : upper (c :: s) = upper1 c ++ upper s.
Proof. reflexivity. Qed.

Lemma upper_app (a b : str) : upper (a ++ b) = upper a ++ upper b.
Proof. apply flat_map_app. Qed.

Lemma upper1_ascii (c : Z) : is_ascii c = true -> upper1 c = [upper_char c].
Proof. intros H. unfold upper1. rewrite H. reflexivity. Qed.

(** On ASCII text [upper] works letter by letter. *)
Lemma upper_ascii_map (s : str) :
  ascii_text s = true -> upper s = map upper_char s.
Proof.
  induction s as [|c s IH]; intros H; [reflexivity|].
  apply ascii_text_cons in H. destruct H as [Hc Hs].
  rewrite upper_cons, (upper1_ascii c Hc), (IH Hs). reflexivity.
Qed.

Lemma len_upper_ascii (s : str) : ascii_text s = true -> len (upper s) = len s.
Proof.
  intros H. rewrite (upper_ascii_map s H). unfold len. rewrite length_map.
  reflexivity.
Qed.

Lemma upper_ascii (s : str) : ascii_text s = true -> ascii_text (upper s) = true.
Proof.
  intros H. rewrite (upper_ascii_map s H).
  unfold ascii_text in *. rewrite forallb_forall in *.
  intros c Hc. apply in_map_iff in Hc. destruct Hc as [d [<- Hd]].
  apply upper_char_ascii, H, Hd.
Qed.

Lemma assoc_In (c : Z) (table : list (Z * list Z)) (to : list Z) :
  assoc c table = Some to -> In (c, to) table.
Proof.
  induction table as [|[k l] table IH]; [discriminate|].
  cbn [assoc]. destruct (Z.eqb_spec c k) as [->|_].
  - intros H. injection H as <-. left. reflexivity.
  - intros H. right. apply IH, H.
Qed.

Lemma upper_table_ok : forallb upper_entry_ok upper_table = true.
Proof. vm_compute. reflexivity. Qed.

Lemma upper_table_entry (c : Z) (to : list Z) :
  assoc c upper_table = Some to ->
  is_space c = false /\ upper to = to /\ 1 <= len to <= 3 /\
  forallb (fun x => negb (is_space x)) to = true.
Proof.
  intros H. apply assoc_In in H.
  assert (T := upper_table_ok). rewrite forallb_forall in T.
  specialize (T _ H). unfold upper_entry_ok in T.
  rewrite !andb_true_iff, negb_true_iff, !Z.leb_le in T.
  destruct T as ((((T1 & T2) & T3) & T4) & T5).
  apply str_eqb_eq in T2. repeat split; assumption.
Qed.

(** The three ways of [upper1]: an ASCII character, a character of the
    table, a character that has no upper case of its own. *)
Lemma upper1_cases (c : Z) :
  (is_ascii c = true /\ upper1 c = [upper_char c]) \/
  (is_ascii c = false /\ exists to, assoc c upper_table = Some to /\ upper1 c = to) \/
  (is_ascii c = false /\ assoc c upper_table = None /\ upper1 c = [c]).
Proof.
  unfold upper1. destruct (is_ascii c); [left; split; reflexivity|].
  right. destruct (assoc c upper_table) as [to|].
  - left. split; [reflexivity|]. exists to. split; reflexivity.
  - right. repeat split.
Qed.

Lemma upper1_idem (c : Z) : upper (upper1 c) = upper1 c.
Proof.
  destruct (upper1_cases c) as [[Ha ->]|[[Ha (to & Ht & ->)]|[Ha [Hn E]]]].
  - rewrite upper_cons, upper1_ascii by (apply upper_char_ascii, Ha).
    rewrite upper_char_idem. reflexivity.
  - apply (upper_table_entry c to Ht).
  - rewrite E. rewrite upper_cons. unfold upper1. rewrite Ha, Hn. reflexivity.
Qed.

(** [s.upper().upper() == s.upper()]. *)
Lemma upper_idem (s : str) : upper (upper s) = upper s.
Proof.
  induction s as [|c s IH]; [reflexivity|].
  rewrite upper_cons, upper_app, upper1_idem, IH. reflexivity.
Qed.

Lemma upper1_len (c : Z) : 1 <= len (upper1 c) <= 3.
Proof.
  destruct (upper1_cases c) as [[Ha ->]|[[Ha (to & Ht & ->)]|[Ha [Hn ->]]]].
  - change (len [upper_char c]) with 1. lia.
  - apply (upper_table_entry c to Ht).
  - change (len [c]) with 1. lia.
Qed.

(** [upper] never shortens a text and at most triples it. *)
Lemma len_upper_bounds (s : str) : len s <= len (upper s) <= 3 * len s.
Proof.
  induction s as [|c s IH]; [unfold len; simpl; lia|].
  rewrite upper_cons, len_app, len_cons. assert (H := upper1_len c). lia.
Qed.

Lemma upper1_space (c : Z) : is_space c = true -> upper1 c = [c].
Proof.
  intros Hc.
  destruct (upper1_cases c) as [[Ha ->]|[[Ha (to & Ht & ->)]|[Ha [Hn ->]]]].
  - f_equal. unfold upper_char.
    destruct ((97 <=? c) && (c <=? 122)) eqn:E; [|reflexivity].
    rewrite <- is_space_upper_char in Hc. unfold upper_char in Hc. rewrite E in Hc.
    apply andb_true_iff in E. rewrite !Z.leb_le in E.
    exfalso. revert Hc. unfold is_space.
    repeat match goal with
           | |- context [?a <=? ?b] => destruct (Z.leb_spec a b); try lia
           | |- context [?a =? ?b] => destruct (Z.eqb_spec a b); try lia
           end; discriminate.
  - destruct (upper_table_entry c to Ht) as (H & _). rewrite H in Hc. discriminate Hc.
  - reflexivity.
Qed.

Lemma upper1_no_space (c : Z) :
  is_space c = false -> forallb (fun x => negb (is_space x)) (upper1 c) = true.
Proof.
  intros Hc.
  destruct (upper1_cases c) as [[Ha ->]|[[Ha (to & Ht & ->)]|[Ha [Hn ->]]]].
  - cbn [forallb]. rewrite is_space_upper_char, Hc. reflexivity.
  - apply (upper_table_entry c to Ht).
  - cbn [forallb]. rewrite Hc. reflexivity.
Qed.

Lemma lstrip_spaces (sp : str) : forallb is_space sp = true -> lstrip sp = [].
Proof.
  induction sp as [|c sp IH]; simpl; [reflexivity|].
  intros H. apply andb_true_iff in H. destruct H as [Hc Hs].
  rewrite Hc. apply IH, Hs.
Qed.

Lemma lstrip_spaces_app (sp s : str) :
  forallb is_space sp = true -> lstrip (sp ++ s) = lstrip s.
Proof.
  induction sp as [|c sp IH]; simpl; [reflexivity|].
  intros H. apply andb_true_iff in H. destruct H as [Hc Hs].
  rewrite Hc. apply IH, Hs.
Qed.

Lemma lstrip_app_spaces (s sp : str) :
  forallb is_space sp = true ->
  lstrip (s ++ sp) = match lstrip s with [] => [] | w => w ++ sp end.
Proof.
  intros Hsp. induction s as [|c s IH]; simpl.
  - apply lstrip_spaces, Hsp.
  - destruct (is_space c); [exact IH | reflexivity].
Qed.

Lemma rstrip_app_spaces (s sp : str) :
  forallb is_space sp = true -> rstrip (s ++ sp) = rstrip s.
Proof.
  intros Hsp. unfold rstrip. rewrite rev_app_distr.
  rewrite lstrip_spaces_app; [reflexivity|].
  rewrite forallb_forall in *. intros c Hc. apply Hsp, in_rev, Hc.
Qed.

(** Padding on the right with white space is undone by [strip]. *)
Lemma strip_app_spaces (s sp : str) :
  forallb is_space sp = true -> strip (s ++ sp) = strip s.
Proof.
  intros Hsp. unfold strip. rewrite (lstrip_app_spaces _ _ Hsp).
  destruct (lstrip s) as [|c w]; [reflexivity|].
  apply rstrip_app_spaces, Hsp.
Qed.

Lemma repeat_spaces (n : nat) : forallb is_space (repeat 32 n) = true.
Proof. induction n; simpl; [reflexivity | exact IHn]. Qed.

Lemma split_not_nil (sep : Z) (s : str) : split sep s <> [].
Proof.
  destruct s as [|c s]; simpl; [discriminate|].
  destruct (c =? sep); [discriminate|].
  destruct (split sep s); discriminate.
Qed.

(** [sep.join(s.split(sep)) == s]. *)
Lemma join_split (sep : Z) (s : str) : join sep (split sep s) = s.
Proof.
  induction s as [|c s IH]; [reflexivity|].
  simpl split. destruct (c =? sep) eqn:E.
  - apply Z.eqb_eq in E. subst c.
    assert (H := split_not_nil sep s).
    simpl. destruct (split sep s) as [|w ws]; [contradiction|].
    rewrite IH. reflexivity.
  - assert (H := split_not_nil sep s).
    destruct (split sep s) as [|w ws]; [contradiction|].
    destruct ws as [|w' ws].
    + simpl in *. rewrite IH. reflexivity.
    + change (join sep ((c :: w) :: w' :: ws))
        with (c :: (w ++ sep :: join sep (w' :: ws))).
      change (join sep (w :: w' :: ws))
        with (w ++ sep :: join sep (w' :: ws)) in IH.
      rewrite IH. reflexivity.
Qed.

Lemma split_ascii (sep : Z) (s : str) :
  ascii_text s = true -> Forall (fun w => ascii_text w = true) (split sep s).
Proof.
  induction s as [|c s IH]; intros H.
  - repeat constructor.
  - apply ascii_text_cons in H. destruct H as [Hc Hs]. specialize (IH Hs).
    simpl. destruct (c =? sep).
    + constructor; [reflexivity | exact IH].
    + destruct (split sep s) as [|w ws].
      * repeat constructor. apply ascii_text_cons. split; [exact Hc | reflexivity].
      * inversion IH; subst. constructor; [|assumption].
        apply ascii_text_cons. split; assumption.
Qed.

(** ** Half-octets *)

Lemma land_low_bits (n x : Z) : 0 <= n -> Z.land (Z.ones n) x = x mod 2 ^ n.
Proof. intros Hn. rewrite Z.land_comm. apply Z.land_ones, Hn. Qed.

Lemma land_15_range (x : Z) : 0 <= Z.land 15 x < 16.
Proof.
  change 15 with (Z.ones 4). rewrite land_low_bits by lia.
  change (2 ^ 4) with 16. apply Z.mod_pos_bound. lia.
Qed.

Lemma letters_range (v : Z) : forallb is_letter (letters v) = true.
Proof.
  unfold letters, is_letter, ORD_A. cbn [forallb].
  assert (H1 := land_15_range (Z.shiftr v 4)). assert (H2 := land_15_range v).
  rewrite !andb_true_iff, !Z.leb_le. lia.
Qed.

(** [encode_byte] never raises: both items are letters of ['A'..'P']. *)
Lemma encode_byte_total (v : Z) : NBName.encode_byte v = Ok (letters v).
Proof.
  unfold NBName.encode_byte. cbv zeta. apply mk_bytes_ok.
  unfold letters, is_byte, ORD_A. cbn [forallb].
  assert (H1 := land_15_range (Z.shiftr v 4)). assert (H2 := land_15_range v).
  rewrite !andb_true_iff, !Z.leb_le, !Z.ltb_lt. lia.
Qed.

Lemma mapM_encode_byte (l : bytes) :
  mapM NBName.encode_byte l = Ok (map letters l).
Proof. apply mapM_total. intros v _. apply encode_byte_total. Qed.

Lemma length_concat_letters (l : bytes) :
  List.length (concat (map letters l)) = (2 * List.length l)%nat.
Proof. induction l as [|v l IH]; simpl; [reflexivity | rewrite IH; lia]. Qed.

Lemma concat_letters_range (l : bytes) :
  forallb is_letter (concat (map letters l)) = true.
Proof.
  induction l as [|v l IH]; [reflexivity|].
  cbn [concat map]. rewrite forallb_app, letters_range, IH. reflexivity.
Qed.

Lemma word_round_trip_all :
  forallb word_round_trip (map Z.of_nat (seq 0 256)) = true.
Proof. vm_compute. reflexivity. Qed.

(** [decode_word] undoes [encode_byte] on every byte. *)
Lemma decode_word_letters (v : Z) :
  is_byte v = true ->
  NBName.decode_word (Z.land 15 (Z.shiftr v 4) + ORD_A) (Z.land 15 v + ORD_A)
  = Ok [v].
Proof.
  intros Hv. apply is_byte_iff in Hv.
  assert (H := word_round_trip_all). rewrite forallb_forall in H.
  specialize (H v). unfold word_round_trip, letters in H.
  destruct (NBName.decode_word _ _) as [[|w [|? ?]]|e];
    try (discriminate H; apply in_map_iff; exists (Z.to_nat v);
         split; [lia | apply in_seq; lia]).
  assert (E : (w =? v) = true).
  { apply H. apply in_map_iff. exists (Z.to_nat v).
    split; [lia | apply in_seq; lia]. }
  apply Z.eqb_eq in E. subst w. reflexivity.
Qed.

Lemma decode_bytes_letters (l : bytes) :
  forallb is_byte l = true ->
  NBName.decode_bytes (concat (map letters l)) = Ok l.
Proof.
  induction l as [|v l IH]; intros H; [reflexivity|].
  simpl in H. apply andb_true_iff in H. destruct H as [Hv Hl].
  cbn [concat map]. unfold letters at 1. cbn [app NBName.decode_bytes].
  rewrite (decode_word_letters v Hv), bind_Ok, (IH Hl). reflexivity.
Qed.

(** ** NBName *)

Import NBName.

Lemma init_inv (v : str) (s : option str) (p : Z) (n : NBName.t) :
  __init__ v s p = Ok n ->
  len v <= 15 /\ is_byte p = true /\
  n = mk (upper v)
         (match s with Some (c :: s') => upper (c :: s') | _ => [] end) [p].
Proof.
  unfold __init__, NB_NAME_VALUE_LEN, NB_NAME_FULL_LEN, mk_bytes.
  change (16 - 1) with 15.
  destruct (len v >? 15) eqn:E; [discriminate|].
  cbn [forallb]. rewrite andb_true_r.
  destruct (is_byte p) eqn:Ep; [|discriminate].
  cbn [bind]. intros H. injection H as <-.
  split; [|split; reflexivity].
  destruct (Z.gtb_spec (len v) 15); [discriminate | lia].
Qed.

Lemma init_ok (v : str) (s : option str) (p : Z) :
  len v <= 15 -> is_byte p = true ->
  __init__ v s p
  = Ok (mk (upper v)
           (match s with Some (c :: s') => upper (c :: s') | _ => [] end) [p]).
Proof.
  intros Hv Hp.
  unfold __init__, NB_NAME_VALUE_LEN, NB_NAME_FULL_LEN, mk_bytes.
  change (16 - 1) with 15.
  destruct (Z.gtb_spec (len v) 15); [lia|].
  cbn [forallb]. rewrite Hp. reflexivity.
Qed.

Lemma length_format (v : str) :
  len v <= 15 -> List.length (NB_NAME_FMT_format v) = 15%nat.
Proof.
  intros H. unfold NB_NAME_FMT_format, ljust, NB_NAME_VALUE_LEN, NB_NAME_FULL_LEN.
  change (16 - 1) with 15. rewrite length_app, repeat_length.
  unfold len in *. lia.
Qed.

Lemma length_padding (v : str) :
  len v <= 15 -> List.length (padding v) = 15%nat.
Proof.
  intros H. unfold padding.
  destruct (str_eqb v WILDCARD); [reflexivity | apply length_format, H].
Qed.

Lemma format_ascii (v : str) :
  ascii_text v = true -> ascii_text (NB_NAME_FMT_format v) = true.
Proof.
  intros H. unfold NB_NAME_FMT_format, ljust. apply ascii_text_app.
  split; [exact H|].
  generalize (Z.to_nat (NB_NAME_VALUE_LEN - len v)).
  intros k. induction k; [reflexivity | exact IHk].
Qed.

Lemma padding_bytes (v : str) :
  ascii_text v = true -> forallb is_byte (padding v) = true.
Proof.
  intros H. unfold padding.
  destruct (str_eqb v WILDCARD); [reflexivity|].
  apply ascii_text_bytes, format_ascii, H.
Qed.

Lemma encode_value_ok (n : NBName.t) :
  ascii_text (value n) = true ->
  _encode_value n = Ok (concat (map letters (padding (value n) ++ purpose n))).
Proof.
  intros H. unfold _encode_value, padding.
  destruct (str_eqb (value n) WILDCARD).
  - rewrite bind_Ok, mapM_encode_byte. reflexivity.
  - rewrite (encode_ascii _ (format_ascii _ H)), bind_Ok, mapM_encode_byte.
    reflexivity.
Qed.

Lemma pack_label (l : str) :
  ascii_text l = true -> short_label 255 l = true ->
  pack_item (StrChunk l) = Ok (wire_label l).
Proof.
  intros Ha Hs. unfold pack_item. rewrite (encode_ascii l Ha), bind_Ok.
  rewrite mk_bytes_ok; [reflexivity|].
  cbn [forallb]. rewrite andb_true_r. apply is_byte_iff.
  apply Z.leb_le in Hs. assert (H := len_nonneg l). lia.
Qed.

Lemma pack_labels (ls : list str) :
  Forall (fun l => ascii_text l = true) ls ->
  forallb (short_label 255) ls = true ->
  mapM pack_item (map StrChunk ls) = Ok (map wire_label ls).
Proof.
  induction ls as [|l ls IH]; intros Ha Hs; [reflexivity|].
  inversion Ha; subst. cbn [forallb] in Hs. apply andb_true_iff in Hs.
  destruct Hs as [Hl Hls].
  cbn [map mapM]. rewrite (pack_label l) by assumption.
  rewrite bind_Ok, IH by assumption. reflexivity.
Qed.

Lemma labels_of_ascii (s : str) :
  ascii_text s = true -> Forall (fun l => ascii_text l = true) (labels_of s).
Proof.
  intros H. destruct s as [|c s]; [constructor|]. apply split_ascii, H.
Qed.

Lemma join_labels_of (s : str) : join 46 (labels_of s) = s.
Proof. destruct s as [|c s]; [reflexivity|]. apply join_split. Qed.

(** The wire form of a name whose value is ASCII, of at most 15 characters,
    and whose labels are ASCII of at most 255 characters each. *)
Lemma to_bytes_ok (n : NBName.t) :
  ascii_text (value n) = true -> len (value n) <= 15 ->
  List.length (purpose n) = 1%nat ->
  ascii_text (scope n) = true ->
  forallb (short_label 255) (labels_of (scope n)) = true ->
  to_bytes n
  = Ok ((32 :: concat (map letters (padding (value n) ++ purpose n)))
        ++ concat (map wire_label (labels_of (scope n))) ++ [0]).
Proof.
  intros Hv Hlen Hp Hs Hl. unfold to_bytes.
  rewrite (encode_value_ok n Hv), bind_Ok.
  replace (match scope n with [] => [] | _ :: _ => map StrChunk (split 46 (scope n)) end)
    with (map StrChunk (labels_of (scope n)))
    by (destruct (scope n); reflexivity).
  cbn [app mapM]. unfold pack_item at 1. rewrite bind_Ok.
  assert (E : len (concat (map letters (padding (value n) ++ purpose n))) = 32).
  { unfold len. rewrite length_concat_letters, length_app, length_padding, Hp by exact Hlen.
    reflexivity. }
  rewrite E. change (mk_bytes [32]) with (Ok [32]). rewrite bind_Ok.
  rewrite (pack_labels _ (labels_of_ascii _ Hs) Hl), !bind_Ok.
  cbn [concat app]. rewrite <- app_assoc. reflexivity.
Qed.

Lemma decode_scope_loop_done (fuel : nat) (data : bytes) (offset : Z)
    (chunks : list str) :
  len data <= offset -> decode_scope_loop fuel data offset chunks = Ok chunks.
Proof.
  intros H. destruct fuel; simpl;
    (destruct (offset <? len data) eqn:E; [apply Z.ltb_lt in E; lia | reflexivity]).
Qed.

Lemma decode_scope_loop_labels (ls : list str) :
  Forall (fun l => ascii_text l = true) ls ->
  forall (fuel : nat) (pre : bytes) (chunks : list str),
  (List.length ls <= fuel)%nat ->
  decode_scope_loop fuel (pre ++ concat (map wire_label ls)) (len pre) chunks
  = Ok (chunks ++ ls).
Proof.
  induction 1 as [|l ls Hl Hls IH]; intros fuel pre chunks Hfuel.
  - cbn [map concat]. rewrite !app_nil_r. apply decode_scope_loop_done. lia.
  - destruct fuel as [|fuel]; [simpl in Hfuel; lia|].
    cbn [map concat]. unfold wire_label at 1.
    cbn [decode_scope_loop app].
    set (rest := concat (map wire_label ls)).
    assert (Hlt : (len pre <? len (pre ++ len l :: l ++ rest)) = true).
    { apply Z.ltb_lt. rewrite len_app, len_cons, len_app.
      assert (H1 := len_nonneg l). assert (H2 := len_nonneg rest). lia. }
    rewrite Hlt, index_at, bind_Ok.
    replace (slice (pre ++ len l :: l ++ rest) (len pre + 1) (len pre + 1 + len l))
      with l.
    2:{ replace (pre ++ len l :: l ++ rest) with ((pre ++ [len l]) ++ l ++ rest)
          by (rewrite <- app_assoc; reflexivity).
        replace (len pre + 1) with (len (pre ++ [len l]))
          by (rewrite len_app; reflexivity).
        symmetry. apply slice_mid. }
    rewrite (decode_ascii l Hl), bind_Ok.
    replace (pre ++ len l :: l ++ rest) with ((pre ++ wire_label l) ++ rest)
      by (unfold wire_label; rewrite <- app_assoc; reflexivity).
    replace (len pre + 1 + len l) with (len (pre ++ wire_label l))
      by (unfold wire_label; rewrite len_app, len_cons; lia).
    unfold rest. rewrite IH by (simpl in Hfuel; lia).
    rewrite <- app_assoc. reflexivity.
Qed.

Lemma length_wire_labels (ls : list str) :
  (List.length ls <= List.length (concat (map wire_label ls)))%nat.
Proof.
  induction ls as [|l ls IH]; [reflexivity|].
  cbn [map concat]. rewrite length_app. unfold wire_label at 1. simpl. lia.
Qed.

(** [decode_scope] reads back the labels that [to_bytes] wrote. *)
Lemma decode_scope_labels (ls : list str) :
  Forall (fun l => ascii_text l = true) ls ->
  decode_scope (concat (map wire_label ls)) = Ok (join 46 ls).
Proof.
  intros H. unfold decode_scope.
  destruct (concat (map wire_label ls)) as [|b data] eqn:E.
  - destruct ls as [|l ls]; [reflexivity | discriminate E].
  - rewrite <- E.
    rewrite (decode_scope_loop_labels ls H _ [] []) by apply length_wire_labels.
    reflexivity.
Qed.

(** The parts of [from_bytes] on a buffer made of 33 bytes for the name, a
    body and the byte of the root label. *)
Lemma from_bytes_frame (first : Z) (name body : bytes) :
  List.length name = 32%nat ->
  from_bytes (first :: name ++ body ++ [0])
  = if negb (first =? 32) then Raise (ValueError (NameLength first))
    else
      full_name <- decode_bytes name ;;
      vp <- decode_value_and_purpose full_name ;;
      scope <- decode_scope body ;;
      __init__ (fst vp) (Some scope) (snd vp).
Proof.
  intros Hname. unfold from_bytes.
  replace (first :: name ++ body ++ [0]) with ((first :: name ++ body) ++ [0])
    by (cbn [app]; rewrite <- app_assoc; reflexivity).
  rewrite index_last, bind_Ok. cbn [ZERO Z.eqb negb].
  cbn [app]. rewrite index_head, bind_Ok.
  unfold NB_NAME_FULL_LEN_BYTES, NB_NAME_FULL_LEN. change (16 * 2) with 32.
  destruct (first =? 32) eqn:E; [|reflexivity].
  apply Z.eqb_eq in E. subst first. cbn [negb].
  assert (Hn : len name = 32) by (unfold len; rewrite Hname; reflexivity).
  assert (S1 : slice (32 :: (name ++ body) ++ [0]) (0 + 1) (0 + 1 + 32) = name).
  { pose proof (slice_mid [32] name (body ++ [0])) as S.
    change (len [32]) with 1 in S. rewrite Hn in S.
    rewrite <- app_assoc. exact S. }
  assert (S2 : slice (32 :: (name ++ body) ++ [0]) (0 + 1 + 32) (-1) = body).
  { pose proof (slice_drop_last (32 :: name) body 0) as S.
    rewrite len_cons, Hn in S. rewrite <- app_assoc. exact S. }
  rewrite S1, S2. reflexivity.
Qed.

(** What [decode_value_and_purpose] finds in sixteen ASCII bytes: the
    wildcard test compares an [int] with a [str] and is never taken. *)
Lemma decode_value_and_purpose_ascii (padded : bytes) (p : Z) :
  List.length padded = 15%nat -> ascii_text padded = true ->
  decode_value_and_purpose (padded ++ [p]) = Ok (strip padded, p).
Proof.
  intros Hlen Ha. unfold decode_value_and_purpose.
  unfold NB_NAME_VALUE_LEN, NB_NAME_FULL_LEN. change (16 - 1) with 15.
  replace 15 with (len padded) by (unfold len; rewrite Hlen; reflexivity).
  rewrite slice_to_app, index_at.
  destruct padded as [|c padded]; [discriminate Hlen|].
  rewrite index_head, !bind_Ok. unfold int_eq_str.
  rewrite (decode_ascii _ Ha), !bind_Ok. reflexivity.
Qed.

Lemma strip_format (v : str) : strip (NB_NAME_FMT_format v) = strip v.
Proof. apply strip_app_spaces, repeat_spaces. Qed.

Lemma init_scope_fixed (s : option str) :
  match match s with Some (c :: s') => upper (c :: s') | _ => [] end with
  | c :: s' => upper (c :: s')
  | [] => []
  end
  = match s with Some (c :: s') => upper (c :: s') | _ => [] end.
Proof.
  destruct s as [[|c s']|]; try reflexivity.
  destruct (upper (c :: s')) as [|x t] eqn:E; [reflexivity|].
  rewrite <- E. apply upper_idem.
Qed.

Lemma index_In {A : Type} (l : list A) (i : Z) (a : A) :
  index l i = Ok a -> In a l.
Proof.
  unfold index. destruct (_ <? 0); [discriminate|].
  destruct (nth_error l _) eqn:E; [|discriminate].
  intros H. injection H as <-. apply nth_error_In in E. exact E.
Qed.

Lemma decode_scope_loop_S (fuel : nat) (data : bytes) (offset : Z)
    (chunks : list str) :
  decode_scope_loop (S fuel) data offset chunks
  = if offset <? len data then
      length <- index data offset ;;
      chunk <- decode (slice data (offset + 1) (offset + 1 + length)) ;;
      decode_scope_loop fuel data (offset + 1 + length) (chunks ++ [chunk])
    else Ok chunks.
Proof. reflexivity. Qed.

(** On a buffer of bytes the loop of [decode_scope] ends by itself: once
    the fuel covers what is left of the buffer, more fuel changes nothing. *)
Lemma decode_scope_loop_fuel (data : bytes) :
  Forall (fun b => 0 <= b) data ->
  forall (fuel : nat) (offset : Z) (chunks : list str),
  (Z.to_nat (len data - offset) <= fuel)%nat ->
  decode_scope_loop (S fuel) data offset chunks
  = decode_scope_loop fuel data offset chunks.
Proof.
  intros Hdata. induction fuel as [|fuel IH]; intros offset chunks Hfuel.
  - rewrite !decode_scope_loop_done by lia. reflexivity.
  - rewrite (decode_scope_loop_S (S fuel)), (decode_scope_loop_S fuel).
    destruct (offset <? len data) eqn:E; [|reflexivity].
    apply Z.ltb_lt in E.
    destruct (index data offset) as [length|e] eqn:Ei; [|reflexivity].
    rewrite !bind_Ok.
    destruct (decode _) as [chunk|e]; [|reflexivity].
    rewrite !bind_Ok. apply IH.
    apply index_In in Ei. rewrite Forall_forall in Hdata.
    specialize (Hdata _ Ei). lia.
Qed.

Lemma index_last_nonempty (data : bytes) :
  data <> [] -> index data (-1) = Ok (last data 0).
Proof.
  intros H. destruct (exists_last H) as (l & a & ->).
  rewrite index_last, last_last. reflexivity.
Qed.

(** ** NBNS messages *)

Lemma pack_H_cases (v : Z) :
  pack_H v = if fits_H v then Ok (wire_H v) else Raise StructError.
Proof. reflexivity. Qed.

Lemma wire_H_bytes (v : Z) : fits_H v = true -> forallb is_byte (wire_H v) = true.
Proof.
  unfold fits_H, wire_H, is_byte. cbn [forallb].
  rewrite !andb_true_iff, !Z.leb_le, !Z.ltb_lt. intros [H0 H1].
  rewrite Z.shiftr_div_pow2 by lia. change (2 ^ 8) with 256.
  change 255 with (Z.ones 8). rewrite Z.land_ones by lia. change (2 ^ 8) with 256.
  assert (Hm := Z.mod_pos_bound v 256 ltac:(lia)).
  assert (Hd : 0 <= v / 256 < 256)
    by (split; [apply Z.div_pos; lia | apply Z.div_lt_upper_bound; lia]).
  lia.
Qed.

Lemma lor_disjoint (x b k : Z) :
  0 <= k -> Z.lor (x mod 2 ^ k) (Z.shiftl b k) = x mod 2 ^ k + b * 2 ^ k.
Proof.
  intros Hk.
  assert (H := Z.add_lor_land (x mod 2 ^ k) (Z.shiftl b k)).
  assert (E : Z.land (x mod 2 ^ k) (Z.shiftl b k) = 0).
  { apply Z.bits_inj'. intros i Hi.
    rewrite Z.land_spec, Z.bits_0.
    destruct (Z.lt_ge_cases i k) as [Hlt|Hge].
    - rewrite Z.shiftl_spec_low by exact Hlt. apply andb_false_r.
    - rewrite Z.mod_pow2_bits_high by lia. reflexivity. }
  rewrite E in H. rewrite (Z.shiftl_mul_pow2 b k Hk) in *. lia.
Qed.

Lemma lor_disjoint_small (a b k : Z) :
  0 <= k -> 0 <= a < 2 ^ k -> Z.lor a (Z.shiftl b k) = a + b * 2 ^ k.
Proof.
  intros Hk Ha. pose proof (lor_disjoint a b k Hk) as E.
  rewrite (Z.mod_small a (2 ^ k) Ha) in E. exact E.
Qed.

(** The flags word keeps the low bits of each field and nothing else. *)
Lemma flags_masked (m : NBNSMessage.t) :
  NBNSMessage.flags m
  = NBNSMessage.rcode m mod 16
    + 16 * (NBNSMessage.nm_flags m mod 128)
    + 2048 * (NBNSMessage.opcode m mod 16)
    + 32768 * (NBNSMessage.r m mod 2).
Proof.
  unfold NBNSMessage.flags.
  rewrite (land_low_bits 4 (NBNSMessage.rcode m) ltac:(lia) : Z.land 15 _ = _).
  rewrite (land_low_bits 7 (NBNSMessage.nm_flags m) ltac:(lia) : Z.land 127 _ = _).
  rewrite (land_low_bits 4 (NBNSMessage.opcode m) ltac:(lia) : Z.land 15 _ = _).
  rewrite (land_low_bits 1 (NBNSMessage.r m) ltac:(lia) : Z.land 1 _ = _).
  change (2 ^ 4) with 16. change (2 ^ 7) with 128. change (2 ^ 1) with 2.
  set (a := NBNSMessage.rcode m mod 16).
  set (b := NBNSMessage.nm_flags m mod 128).
  set (c := NBNSMessage.opcode m mod 16).
  set (d := NBNSMessage.r m mod 2).
  assert (Ha : 0 <= a < 16) by (apply Z.mod_pos_bound; lia).
  assert (Hb : 0 <= b < 128) by (apply Z.mod_pos_bound; lia).
  assert (Hc : 0 <= c < 16) by (apply Z.mod_pos_bound; lia).
  assert (Hd : 0 <= d < 2) by (apply Z.mod_pos_bound; lia).
  rewrite (lor_disjoint_small a b 4) by (change (2 ^ 4) with 16; lia).
  change (2 ^ 4) with 16.
  rewrite (lor_disjoint_small (a + b * 16) c 11) by (change (2 ^ 11) with 2048; lia).
  change (2 ^ 11) with 2048.
  rewrite (lor_disjoint_small (a + b * 16 + c * 2048) d 15)
    by (change (2 ^ 15) with 32768; lia).
  change (2 ^ 15) with 32768. lia.
Qed.

Lemma flags_fit (m : NBNSMessage.t) : fits_H (NBNSMessage.flags m) = true.
Proof.
  rewrite flags_masked. unfold fits_H.
  assert (Ha := Z.mod_pos_bound (NBNSMessage.rcode m) 16 ltac:(lia)).
  assert (Hb := Z.mod_pos_bound (NBNSMessage.nm_flags m) 128 ltac:(lia)).
  assert (Hc := Z.mod_pos_bound (NBNSMessage.opcode m) 16 ltac:(lia)).
  assert (Hd := Z.mod_pos_bound (NBNSMessage.r m) 2 ltac:(lia)).
  rewrite andb_true_iff, !Z.leb_le. lia.
Qed.

(** ** UTF-8 *)

Lemma Ok_inj {A : Type} (a b : A) : Ok a = Ok b -> a = b.
Proof. intros H. injection H as H. exact H. Qed.

Lemma range_check (P : Z -> bool) (n : nat) :
  forallb P (map Z.of_nat (seq 0 n)) = true ->
  forall x, 0 <= x < Z.of_nat n -> P x = true.
Proof.
  intros H x Hx. rewrite forallb_forall in H. apply H.
  apply in_map_iff. exists (Z.to_nat x). split; [lia | apply in_seq; lia].
Qed.

Lemma lead2 (q : Z) :
  0 <= q < 32 -> Z.lor 192 q = 192 + q /\ Z.land (192 + q) 31 = q.
Proof.
  intros H.
  assert (T := range_check
    (fun q => (Z.lor 192 q =? 192 + q) && (Z.land (192 + q) 31 =? q)) 32
    ltac:(vm_compute; reflexivity) q H).
  cbv beta in T. apply andb_true_iff in T. rewrite !Z.eqb_eq in T. exact T.
Qed.

Lemma lead3 (q : Z) :
  0 <= q < 16 -> Z.lor 224 q = 224 + q /\ Z.land (224 + q) 15 = q.
Proof.
  intros H.
  assert (T := range_check
    (fun q => (Z.lor 224 q =? 224 + q) && (Z.land (224 + q) 15 =? q)) 16
    ltac:(vm_compute; reflexivity) q H).
  cbv beta in T. apply andb_true_iff in T. rewrite !Z.eqb_eq in T. exact T.
Qed.

Lemma lead4 (q : Z) :
  0 <= q < 8 -> Z.lor 240 q = 240 + q /\ Z.land (240 + q) 7 = q.
Proof.
  intros H.
  assert (T := range_check
    (fun q => (Z.lor 240 q =? 240 + q) && (Z.land (240 + q) 7 =? q)) 8
    ltac:(vm_compute; reflexivity) q H).
  cbv beta in T. apply andb_true_iff in T. rewrite !Z.eqb_eq in T. exact T.
Qed.

Lemma trail (r : Z) :
  0 <= r < 64 -> Z.lor 128 r = 128 + r /\ cont (128 + r) = r.
Proof.
  intros H.
  assert (T := range_check
    (fun r => (Z.lor 128 r =? 128 + r) && (cont (128 + r) =? r)) 64
    ltac:(vm_compute; reflexivity) r H).
  cbv beta in T. apply andb_true_iff in T. rewrite !Z.eqb_eq in T. exact T.
Qed.

Lemma lor_shiftl_low (q r k : Z) :
  0 <= k -> 0 <= r < 2 ^ k -> Z.lor (Z.shiftl q k) r = q * 2 ^ k + r.
Proof.
  intros Hk Hr. rewrite Z.lor_comm, lor_disjoint_small by assumption. lia.
Qed.

Lemma land_63 (x : Z) : Z.land x 63 = x mod 64.
Proof. exact (Z.land_ones x 6 ltac:(lia)). Qed.

Ltac split_tests :=
  repeat match goal with
         | |- context [?a <=? ?b] => destruct (Z.leb_spec a b); try lia
         | |- context [?a <? ?b] => destruct (Z.ltb_spec a b); try lia
         | |- context [?a =? ?b] => destruct (Z.eqb_spec a b); try lia
         end.

Lemma decode_1 (b0 : Z) (r0 : bytes) :
  between 0 127 b0 = true ->
  decode (b0 :: r0) = (s <- decode r0 ;; Ok (b0 :: s)).
Proof. intros H. cbn [decode]. rewrite H. reflexivity. Qed.

Lemma decode_2 (b0 b1 : Z) (r1 : bytes) :
  between 0 127 b0 = false ->
  between 194 223 b0 && between 128 191 b1 = true ->
  decode (b0 :: b1 :: r1)
  = (s <- decode r1 ;; Ok (Z.lor (Z.shiftl (Z.land b0 31) 6) (cont b1) :: s)).
Proof.
  intros H0 H1. cbn [decode]. rewrite H0, H1. reflexivity.
Qed.

Lemma decode_3 (b0 b1 b2 : Z) (r2 : bytes) :
  between 0 127 b0 = false ->
  between 194 223 b0 && between 128 191 b1 = false ->
  ((b0 =? 224) && between 160 191 b1
   || between 225 236 b0 && between 128 191 b1
   || (b0 =? 237) && between 128 159 b1
   || between 238 239 b0 && between 128 191 b1)
  && between 128 191 b2 = true ->
  decode (b0 :: b1 :: b2 :: r2)
  = (s <- decode r2 ;;
     Ok (Z.lor (Z.shiftl (Z.land b0 15) 12)
           (Z.lor (Z.shiftl (cont b1) 6) (cont b2)) :: s)).
Proof.
  intros H0 H1 H2.
  cbn [decode]. rewrite H0, H1, H2. reflexivity.
Qed.

Lemma decode_4 (b0 b1 b2 b3 : Z) (r3 : bytes) :
  between 0 127 b0 = false ->
  between 194 223 b0 && between 128 191 b1 = false ->
  ((b0 =? 224) && between 160 191 b1
   || between 225 236 b0 && between 128 191 b1
   || (b0 =? 237) && between 128 159 b1
   || between 238 239 b0 && between 128 191 b1)
  && between 128 191 b2 = false ->
  ((b0 =? 240) && between 144 191 b1
   || between 241 243 b0 && between 128 191 b1
   || (b0 =? 244) && between 128 143 b1)
  && between 128 191 b2 && between 128 191 b3 = true ->
  decode (b0 :: b1 :: b2 :: b3 :: r3)
  = (s <- decode r3 ;;
     Ok (Z.lor (Z.shiftl (Z.land b0 7) 18)
           (Z.lor (Z.shiftl (cont b1) 12)
              (Z.lor (Z.shiftl (cont b2) 6) (cont b3))) :: s)).
Proof.
  intros H0 H1 H2 H3.
  cbn [decode]. rewrite H0, H1, H2, H3. reflexivity.
Qed.

(** [decode] reads back the UTF-8 form of one character. *)
Lemma decode_encode_char (c : Z) (bs rest : bytes) :
  is_code_point c = true -> encode_char c = Ok bs ->
  decode (bs ++ rest) = (s <- decode rest ;; Ok (c :: s)).
Proof.
  unfold is_code_point. rewrite andb_true_iff, !Z.leb_le. intros Hc.
  unfold encode_char.
  destruct (Z.ltb_spec c 128) as [H1|H1].
  { intros E. apply Ok_inj in E. subst bs. cbn [app].
    apply decode_1. unfold between. split_tests; try reflexivity. }
  destruct (Z.ltb_spec c 2048) as [H2|H2].
  { intros E. apply Ok_inj in E. subst bs.
    rewrite Z.shiftr_div_pow2, land_63 by lia. change (2 ^ 6) with 64.
    assert (Hq : 0 <= c / 64 < 32) by (Z.div_mod_to_equations; lia).
    assert (Hq' : 2 <= c / 64) by (Z.div_mod_to_equations; lia).
    assert (Hr : 0 <= c mod 64 < 64) by (apply Z.mod_pos_bound; lia).
    destruct (lead2 _ Hq) as [-> L]. destruct (trail _ Hr) as [-> T].
    cbn [app]. rewrite decode_2 by (unfold between; split_tests; try reflexivity).
    rewrite L, T.
    rewrite lor_shiftl_low by (change (2 ^ 6) with 64; lia). change (2 ^ 6) with 64.
    replace (c / 64 * 64 + c mod 64) with c by (Z.div_mod_to_equations; lia).
    reflexivity. }
  destruct ((55296 <=? c) && (c <=? 57343)) eqn:Hs; [discriminate|].
  apply andb_false_iff in Hs. rewrite Z.leb_gt, Z.leb_gt in Hs.
  destruct (Z.ltb_spec c 65536) as [H3|H3].
  { intros E. apply Ok_inj in E. subst bs.
    rewrite !Z.shiftr_div_pow2, !land_63 by lia.
    change (2 ^ 6) with 64. change (2 ^ 12) with 4096.
    set (q := c / 4096). set (r1 := (c / 64) mod 64). set (r2 := c mod 64).
    assert (Hq : 0 <= q < 16) by (subst q; Z.div_mod_to_equations; lia).
    assert (Hr1 : 0 <= r1 < 64) by (apply Z.mod_pos_bound; lia).
    assert (Hr2 : 0 <= r2 < 64) by (apply Z.mod_pos_bound; lia).
    assert (Hc' : c = q * 4096 + r1 * 64 + r2)
      by (subst q r1 r2; Z.div_mod_to_equations; lia).
    destruct (lead3 _ Hq) as [-> L].
    destruct (trail _ Hr1) as [-> T1]. destruct (trail _ Hr2) as [-> T2].
    cbn [app]. rewrite decode_3 by (unfold between; split_tests; try reflexivity).
    rewrite L, T1, T2.
    rewrite (lor_shiftl_low r1 r2 6) by (change (2 ^ 6) with 64; lia).
    change (2 ^ 6) with 64.
    rewrite lor_shiftl_low by (change (2 ^ 12) with 4096; lia).
    change (2 ^ 12) with 4096.
    replace (q * 4096 + (r1 * 64 + r2)) with c by lia.
    reflexivity. }
  intros E. apply Ok_inj in E. subst bs.
  rewrite !Z.shiftr_div_pow2, !land_63 by lia.
  change (2 ^ 6) with 64. change (2 ^ 12) with 4096. change (2 ^ 18) with 262144.
  set (q := c / 262144). set (r1 := (c / 4096) mod 64).
  set (r2 := (c / 64) mod 64). set (r3 := c mod 64).
  assert (Hq : 0 <= q < 8) by (subst q; Z.div_mod_to_equations; lia).
  assert (Hq' : q <= 4) by (subst q; Z.div_mod_to_equations; lia).
  assert (Hr1 : 0 <= r1 < 64) by (apply Z.mod_pos_bound; lia).
  assert (Hr2 : 0 <= r2 < 64) by (apply Z.mod_pos_bound; lia).
  assert (Hr3 : 0 <= r3 < 64) by (apply Z.mod_pos_bound; lia).
  assert (Hc' : c = q * 262144 + r1 * 4096 + r2 * 64 + r3)
    by (subst q r1 r2 r3; Z.div_mod_to_equations; lia).
  destruct (lead4 _ Hq) as [-> L].
  destruct (trail _ Hr1) as [-> T1]. destruct (trail _ Hr2) as [-> T2].
  destruct (trail _ Hr3) as [-> T3].
  cbn [app]. rewrite decode_4 by (unfold between; split_tests; try reflexivity).
  rewrite L, T1, T2, T3.
  rewrite (lor_shiftl_low r2 r3 6) by (change (2 ^ 6) with 64; lia).
  change (2 ^ 6) with 64.
  rewrite (lor_shiftl_low r1 _ 12) by (change (2 ^ 12) with 4096; lia).
  change (2 ^ 12) with 4096.
  rewrite lor_shiftl_low by (change (2 ^ 18) with 262144; lia).
  change (2 ^ 18) with 262144.
  replace (q * 262144 + (r1 * 4096 + (r2 * 64 + r3))) with c by lia.
  reflexivity.
Qed.

(** [s.encode().decode() == s] for every text that can be encoded. *)
Lemma decode_encode (s : str) (b : bytes) :
  is_str s = true -> encode s = Ok b -> decode b = Ok s.
Proof.
  unfold encode. revert b. induction s as [|c s IH]; intros b Hs H.
  - injection H as <-. reflexivity.
  - unfold is_str in Hs. cbn [forallb] in Hs. apply andb_true_iff in Hs.
    destruct Hs as [Hc Hs]. cbn [mapM] in H.
    destruct (encode_char c) as [bs|e] eqn:Ec; [|discriminate H].
    rewrite bind_Ok in H.
    destruct (mapM encode_char s) as [chunks|e] eqn:Em; [|discriminate H].
    rewrite !bind_Ok in H. injection H as <-. cbn [concat].
    rewrite (decode_encode_char c bs _ Hc Ec).
    rewrite (IH (concat chunks) Hs eq_refl). reflexivity.
Qed.

(** ** Labels in UTF-8 *)

Lemma fits_bytes_encoded (bound : Z) (l : str) :
  fits_bytes bound l = true ->
  exists b, encode l = Ok b /\ len b <= bound /\ decode b = Ok l.
Proof.
  unfold fits_bytes. rewrite andb_true_iff. intros [Hs H].
  destruct (encode l) as [b|e] eqn:E; [|discriminate H].
  exists b. split; [reflexivity|]. split; [apply Z.leb_le, H|].
  apply (decode_encode l b Hs E).
Qed.

Lemma labels_encoded (bound : Z) (ls : list str) :
  forallb (fits_bytes bound) ls = true ->
  exists bs,
    mapM encode ls = Ok bs /\ mapM decode bs = Ok ls /\
    forallb (short_label bound) bs = true.
Proof.
  induction ls as [|l ls IH]; intros H.
  - exists []. repeat split.
  - cbn [forallb] in H. apply andb_true_iff in H. destruct H as [Hl Hls].
    destruct (fits_bytes_encoded _ _ Hl) as (b & Eb & Hb & Db).
    destruct (IH Hls) as (bs & Ebs & Dbs & Hbs).
    exists (b :: bs). cbn [mapM forallb].
    rewrite Eb, Ebs, Db, Dbs, Hbs. unfold short_label.
    replace (len b <=? bound) with true by (symmetry; apply Z.leb_le, Hb).
    repeat split.
Qed.

Lemma pack_encoded (l : str) (b : bytes) :
  encode l = Ok b -> short_label 255 b = true ->
  pack_item (StrChunk l) = Ok (wire_label b).
Proof.
  intros E Hs. unfold pack_item. rewrite E, bind_Ok.
  rewrite mk_bytes_ok; [reflexivity|].
  cbn [forallb]. rewrite andb_true_r. apply is_byte_iff.
  apply Z.leb_le in Hs. assert (H := len_nonneg b). lia.
Qed.

Lemma pack_labels_encoded (ls : list str) :
  forall bs, mapM encode ls = Ok bs ->
  forallb (short_label 255) bs = true ->
  mapM pack_item (map StrChunk ls) = Ok (map wire_label bs).
Proof.
  induction ls as [|l ls IH]; intros bs E Hs.
  - injection E as <-. reflexivity.
  - cbn [mapM] in E. destruct (encode l) as [b|e] eqn:Eb; [|discriminate E].
    rewrite bind_Ok in E.
    destruct (mapM encode ls) as [bs'|e] eqn:Ebs; [|discriminate E].
    rewrite bind_Ok in E. apply Ok_inj in E. subst bs.
    cbn [forallb] in Hs. apply andb_true_iff in Hs. destruct Hs as [Hb Hbs].
    cbn [map mapM]. rewrite (pack_encoded l b Eb Hb), bind_Ok.
    rewrite (IH bs' eq_refl Hbs). reflexivity.
Qed.

(** The loop of [decode_scope] over well-formed labels, whatever comes
    after them in the buffer: one turn a label. *)
Lemma decode_scope_loop_frame (bs : list bytes) :
  forall (ls : list str), mapM decode bs = Ok ls ->
  forall (fuel : nat) (pre tail : bytes) (chunks : list str),
  decode_scope_loop (List.length bs + fuel)
    (pre ++ concat (map wire_label bs) ++ tail) (len pre) chunks
  = decode_scope_loop fuel
      (pre ++ concat (map wire_label bs) ++ tail)
      (len pre + len (concat (map wire_label bs))) (chunks ++ ls).
Proof.
  induction bs as [|b bs IH]; intros ls E fuel pre tail chunks.
  - apply Ok_inj in E. subst ls. cbn [map concat List.length Nat.add].
    change (len (@nil Z)) with 0. rewrite Z.add_0_r, app_nil_r. reflexivity.
  - cbn [mapM] in E. destruct (decode b) as [l|e] eqn:Eb; [|discriminate E].
    rewrite bind_Ok in E.
    destruct (mapM decode bs) as [ls'|e] eqn:Ebs; [|discriminate E].
    rewrite bind_Ok in E. apply Ok_inj in E. subst ls.
    pose proof (IH ls' eq_refl fuel (pre ++ wire_label b) tail (chunks ++ [l])) as F.
    assert (Hd : (pre ++ wire_label b) ++ concat (map wire_label bs) ++ tail
                 = pre ++ concat (map wire_label (b :: bs)) ++ tail)
      by (cbn [map concat]; rewrite <- !app_assoc; reflexivity).
    rewrite Hd in F.
    assert (Hl : len (pre ++ wire_label b) = len pre + 1 + len b)
      by (unfold wire_label; rewrite len_app, len_cons; lia).
    rewrite Hl in F.
    set (data := pre ++ concat (map wire_label (b :: bs)) ++ tail) in *.
    assert (Hd1 : data = pre ++ len b :: b ++ concat (map wire_label bs) ++ tail)
      by (unfold data, wire_label; cbn [map concat app];
          rewrite <- !app_assoc; reflexivity).
    assert (Hd2 : data = (pre ++ [len b]) ++ b ++ concat (map wire_label bs) ++ tail)
      by (rewrite Hd1, <- app_assoc; reflexivity).
    assert (Hlt : (len pre <? len data) = true).
    { apply Z.ltb_lt. rewrite Hd1, len_app, len_cons.
      assert (H1 := len_nonneg (b ++ concat (map wire_label bs) ++ tail)). lia. }
    assert (Hi : index data (len pre) = Ok (len b))
      by (rewrite Hd1; apply index_at).
    assert (Hs : slice data (len pre + 1) (len pre + 1 + len b) = b).
    { rewrite Hd2.
      replace (len pre + 1) with (len (pre ++ [len b]))
        by (rewrite len_app; reflexivity).
      apply slice_mid. }
    change (List.length (b :: bs) + fuel)%nat with (S (List.length bs + fuel)).
    rewrite decode_scope_loop_S, Hlt, Hi, bind_Ok, Hs, Eb, bind_Ok, F.
    f_equal.
    + cbn [map concat]. rewrite !len_app.
      change (len (wire_label b)) with (len (len b :: b)). rewrite len_cons. lia.
    + rewrite <- app_assoc. reflexivity.
Qed.

Lemma length_wire_bytes (bs : list bytes) :
  (List.length bs <= List.length (concat (map wire_label bs)))%nat.
Proof.
  induction bs as [|b bs IH]; [reflexivity|].
  cbn [map concat]. rewrite length_app. unfold wire_label at 1. simpl. lia.
Qed.

(** [decode_scope] on well-formed labels. *)
Lemma decode_scope_encoded (bs : list bytes) (ls : list str) :
  mapM decode bs = Ok ls ->
  decode_scope (concat (map wire_label bs)) = Ok (join 46 ls).
Proof.
  intros E. unfold decode_scope.
  destruct (concat (map wire_label bs)) as [|x data] eqn:Ed.
  - destruct bs as [|b bs]; [|discriminate Ed]. apply Ok_inj in E. subst ls.
    reflexivity.
  - rewrite <- Ed.
    assert (Hf := length_wire_bytes bs).
    replace (List.length (concat (map wire_label bs)))
      with (List.length bs
            + (List.length (concat (map wire_label bs)) - List.length bs))%nat
      by lia.
    pose proof (decode_scope_loop_frame bs ls E
                  (List.length (concat (map wire_label bs)) - List.length bs)
                  [] [] []) as F.
    rewrite app_nil_r in F. cbn [app] in F. change (len (@nil Z)) with 0 in F.
    rewrite F, decode_scope_loop_done by lia. reflexivity.
Qed.


(** The wire form of a name whose value is ASCII of at most 15
    characters and whose labels have at most 255 bytes each. *)
Lemma to_bytes_encoded (n : NBName.t) (bs : list bytes) :
  ascii_text (value n) = true -> len (value n) <= 15 ->
  List.length (purpose n) = 1%nat ->
  mapM encode (labels_of (scope n)) = Ok bs ->
  forallb (short_label 255) bs = true ->
  to_bytes n
  = Ok ((32 :: concat (map letters (padding (value n) ++ purpose n)))
        ++ concat (map wire_label bs) ++ [0]).
Proof.
  intros Hv Hlen Hp Hs Hl. unfold to_bytes.
  rewrite (encode_value_ok n Hv), bind_Ok.
  replace (match scope n with [] => [] | _ :: _ => map StrChunk (split 46 (scope n)) end)
    with (map StrChunk (labels_of (scope n)))
    by (destruct (scope n); reflexivity).
  cbn [app mapM]. unfold pack_item at 1. rewrite bind_Ok.
  assert (E : len (concat (map letters (padding (value n) ++ purpose n))) = 32).
  { unfold len. rewrite length_concat_letters, length_app, length_padding, Hp by exact Hlen.
    reflexivity. }
  rewrite E. change (mk_bytes [32]) with (Ok [32]). rewrite bind_Ok.
  rewrite (pack_labels_encoded _ bs Hs Hl), !bind_Ok.
  cbn [concat app]. rewrite <- app_assoc. reflexivity.
Qed.

(** What [from_bytes] makes of the wire form of such a name when it is
    not the wildcard: the value comes back stripped. *)
Lemma from_bytes_to_bytes_encoded (n : NBName.t) (p : Z) :
  ascii_text (value n) = true -> len (value n) <= 15 ->
  str_eqb (value n) WILDCARD = false ->
  purpose n = [p] -> is_byte p = true ->
  forallb (fits_bytes 255) (labels_of (scope n)) = true ->
  exists data,
    to_bytes n = Ok data /\
    from_bytes data = __init__ (strip (value n)) (Some (scope n)) p.
Proof.
  intros Hv Hlen Hw Hp Hb Hl.
  destruct (labels_encoded _ _ Hl) as (bs & Ebs & Dbs & Hbs).
  eexists. split.
  - apply (to_bytes_encoded n bs); try assumption. rewrite Hp. reflexivity.
  - cbn [app]. rewrite from_bytes_frame.
    2:{ rewrite length_concat_letters, length_app, length_padding, Hp by exact Hlen.
        reflexivity. }
    change (negb (32 =? 32)) with false. cbv iota.
    rewrite decode_bytes_letters, bind_Ok.
    2:{ rewrite forallb_app, (padding_bytes _ Hv), Hp. cbn [forallb].
        rewrite Hb. reflexivity. }
    rewrite Hp. unfold padding. rewrite Hw.
    rewrite decode_value_and_purpose_ascii, bind_Ok
      by (try apply length_format; try apply format_ascii; assumption).
    rewrite (decode_scope_encoded bs _ Dbs), bind_Ok.
    rewrite join_labels_of, strip_format. reflexivity.
Qed.

Lemma fits_bytes_weaken (a b : Z) (ls : list str) :
  a <= b -> forallb (fits_bytes a) ls = true -> forallb (fits_bytes b) ls = true.
Proof.
  intros Hab. rewrite !forallb_forall. intros H l Hl.
  specialize (H l Hl). unfold fits_bytes in *.
  apply andb_true_iff in H. destruct H as [H1 H2]. rewrite H1.
  destruct (encode l); [|discriminate H2].
  rewrite Z.leb_le in *. cbn [andb]. apply Z.leb_le. lia.
Qed.


(** ** White space at the ends *)

Lemma lstrip_fixed (c : Z) (s : str) : is_space c = false -> lstrip (c :: s) = c :: s.
Proof. intros H. cbn [lstrip]. rewrite H. reflexivity. Qed.

Lemma lstrip_head (s : str) :
  lstrip s = [] \/ exists c t, lstrip s = c :: t /\ is_space c = false.
Proof.
  induction s as [|c s IH]; [left; reflexivity|].
  cbn [lstrip]. destruct (is_space c) eqn:E; [exact IH|].
  right. exists c, s. split; [reflexivity | exact E].
Qed.

Lemma lstrip_keeps_last (a : str) (c : Z) :
  is_space c = false -> exists a', lstrip (a ++ [c]) = a' ++ [c].
Proof.
  intros Hc. induction a as [|x a IH].
  - exists []. cbn [app lstrip]. rewrite Hc. reflexivity.
  - cbn [app lstrip]. destruct (is_space x); [exact IH|].
    exists (x :: a). reflexivity.
Qed.

Lemma strip_fixed (c : Z) (t : str) :
  is_space c = false -> is_space (last (c :: t) 0) = false ->
  strip (c :: t) = c :: t.
Proof.
  intros Hc Hz. unfold strip. rewrite (lstrip_fixed c t Hc). unfold rstrip.
  destruct (exists_last (l := c :: t) ltac:(discriminate)) as (u & z & E).
  rewrite E in *. rewrite last_last in Hz.
  rewrite rev_app_distr. cbn [rev app]. rewrite (lstrip_fixed z _ Hz).
  cbn [rev]. rewrite rev_involutive. reflexivity.
Qed.

Lemma strip_shape (s : str) :
  strip s = [] \/
  exists c t, strip s = c :: t /\ is_space c = false /\
              is_space (last (c :: t) 0) = false.
Proof.
  unfold strip.
  destruct (lstrip_head s) as [E|(c & t & E & Hc)]; rewrite E; [left; reflexivity|].
  right. unfold rstrip. cbn [rev].
  destruct (lstrip_keeps_last (rev t) c Hc) as (a & Ea).
  exists c, (rev a). rewrite Ea, rev_app_distr. cbn [rev app].
  split; [reflexivity|]. split; [exact Hc|].
  destruct a as [|x a]; [exact Hc|].
  destruct (lstrip_head (rev t ++ [c])) as [E'|(d & u & E' & Hd)];
    rewrite Ea in E'; [discriminate E'|].
  injection E' as -> _.
  cbn [rev]. rewrite app_comm_cons, last_last. exact Hd.
Qed.

Lemma upper1_shape (c : Z) :
  is_space c = false ->
  exists w y, upper1 c = w ++ [y] /\ is_space y = false /\
              forallb (fun x => negb (is_space x)) (upper1 c) = true.
Proof.
  intros Hc. assert (Hn := upper1_no_space c Hc). assert (Hl := upper1_len c).
  destruct (upper1 c) as [|x l] eqn:E; [unfold len in Hl; simpl in Hl; lia|].
  destruct (exists_last (l := x :: l) ltac:(discriminate)) as (w & y & Ew).
  exists w, y. split; [exact Ew|]. split; [|exact Hn].
  rewrite forallb_forall in Hn.
  assert (Hy : In y (x :: l)) by (rewrite Ew; apply in_or_app; right; left; reflexivity).
  specialize (Hn y Hy). apply negb_true_iff in Hn. exact Hn.
Qed.

(** Upper-casing keeps the two ends of a text free of white space. *)
Lemma upper_keeps_ends (c : Z) (t : str) :
  is_space c = false -> is_space (last (c :: t) 0) = false ->
  exists x u, upper (c :: t) = x :: u /\ is_space x = false /\
              is_space (last (x :: u) 0) = false.
Proof.
  intros Hc Hz.
  destruct (exists_last (l := c :: t) ltac:(discriminate)) as (v & z & Ev).
  rewrite Ev in Hz. rewrite last_last in Hz.
  destruct (upper1_shape z Hz) as (w & y & Ew & Hy & _).
  destruct (upper1_shape c Hc) as (_ & _ & _ & _ & Hall).
  assert (Hl := upper1_len c).
  assert (Elast : upper (c :: t) = (upper v ++ w) ++ [y]).
  { rewrite Ev, upper_app. cbn [upper flat_map]. rewrite app_nil_r.
    fold (upper1 z). rewrite Ew, app_assoc. reflexivity. }
  rewrite upper_cons in *.
  destruct (upper1 c) as [|x l] eqn:E; [unfold len in Hl; simpl in Hl; lia|].
  exists x, (l ++ upper t). split; [reflexivity|]. split.
  - cbn [forallb] in Hall. apply andb_true_iff in Hall.
    destruct Hall as [Hx _]. apply negb_true_iff in Hx. exact Hx.
  - change (x :: l ++ upper t) with ((x :: l) ++ upper t).
    rewrite Elast, last_last. exact Hy.
Qed.

(** What [strip] returns stays stripped when it is upper-cased. *)
Lemma strip_upper_strip (s : str) : strip (upper (strip s)) = upper (strip s).
Proof.
  destruct (strip_shape s) as [->|(c & t & -> & Hc & Hz)]; [reflexivity|].
  destruct (upper_keeps_ends c t Hc Hz) as (x & u & -> & Hx & Hu).
  apply strip_fixed; assumption.
Qed.

Lemma length_format_any (v : str) :
  len (NB_NAME_FMT_format v) = Z.max 15 (len v).
Proof.
  unfold NB_NAME_FMT_format, ljust, NB_NAME_VALUE_LEN, NB_NAME_FULL_LEN.
  change (16 - 1) with 15. rewrite len_app. unfold len.
  rewrite repeat_length. lia.
Qed.

(** ** The claims on names *)

(** C1, as amended.  For every name made by the constructor whose value
    is ASCII text of at most 15 bytes without white space at either end
    and is not the wildcard, and whose scope labels have at most 63 bytes
    each in UTF-8, encoding succeeds and decoding the result gives the
    same name back: value and scope upper-cased, purpose kept. *)
Theorem round_trip (v : str) (s : option str) (p : Z) (n : NBName.t) :
  __init__ v s p = Ok n ->
  ascii_text (value n) = true ->
  len (value n) <= 15 ->
  strip (value n) = value n ->
  str_eqb (value n) WILDCARD = false ->
  forallb (fits_bytes 63) (labels_of (scope n)) = true ->
  exists data,
    to_bytes n = Ok data /\ from_bytes data = Ok n /\
    value n = upper v /\
    scope n = match s with Some x => upper x | None => [] end /\
    purpose n = [p].
Proof.
  intros Hinit Hv Hlen Hstrip Hw Hl.
  destruct (init_inv _ _ _ _ Hinit) as (_ & Hb & Hn).
  assert (Hp : purpose n = [p]) by (rewrite Hn; reflexivity).
  destruct (from_bytes_to_bytes_encoded n p Hv Hlen Hw Hp Hb
              (fits_bytes_weaken 63 255 _ ltac:(lia) Hl)) as (data & Hto & Hfrom).
  exists data. split; [exact Hto|]. split.
  - rewrite Hfrom, Hstrip, (init_ok _ _ _ Hlen Hb).
    subst n. cbn [value scope]. f_equal. f_equal.
    + apply upper_idem.
    + apply init_scope_fixed.
  - subst n. cbn [value scope purpose]. repeat split.
    destruct s as [[|c s']|]; reflexivity.
Qed.

Lemma round_trip_witness :
  exists data,
    to_bytes (mk (lit "FILESRV") (lit "WORKGROUP.LAN") [32]) = Ok data /\
    from_bytes data = Ok (mk (lit "FILESRV") (lit "WORKGROUP.LAN") [32]) /\
    lit "FILESRV" = upper (lit "FileSrv") /\
    lit "WORKGROUP.LAN" = upper (lit "workgroup.lan") /\
    [32] = [32].
Proof.
  apply (round_trip (lit "FileSrv") (Some (lit "workgroup.lan")) 32
           (mk (lit "FILESRV") (lit "WORKGROUP.LAN") [32]));
    try reflexivity.
  unfold len. simpl. lia.
Defined.

(** C1 as stated fails.  A value that ends in a space comes back without
    it, since the padding is stripped.  The wildcard comes back with its
    fourteen zero bytes of padding, since the wildcard test of
    [decode_value_and_purpose] compares an [int] with a [str].  A value
    with a character that is not ASCII, here U+00C9 of two bytes, is
    padded to fifteen characters, which are sixteen bytes, and its
    encoding is refused by [from_bytes]. *)
Lemma round_trip_fails :
  (exists n data m,
     __init__ (lit "A ") None 0 = Ok n /\ to_bytes n = Ok data /\
     from_bytes data = Ok m /\ value n = lit "A " /\ value m = lit "A" /\
     m <> n) /\
  (exists n data m,
     __init__ (lit "*") None 0 = Ok n /\ to_bytes n = Ok data /\
     from_bytes data = Ok m /\ value n = lit "*" /\
     value m = 42 :: repeat 0 14 /\ m <> n) /\
  (exists n data,
     __init__ [201] None 0 = Ok n /\ value n = [201] /\
     encode (value n) = Ok [195; 137] /\
     to_bytes n = Ok data /\
     from_bytes data = Raise (ValueError (NameLength 34))).
Proof.
  split; [|split].
  - eexists. eexists. eexists.
    split; [reflexivity|]. split; [vm_compute; reflexivity|].
    split; [vm_compute; reflexivity|].
    split; [reflexivity|]. split; [reflexivity|]. discriminate.
  - eexists. eexists. eexists.
    split; [reflexivity|]. split; [vm_compute; reflexivity|].
    split; [vm_compute; reflexivity|].
    split; [reflexivity|]. split; [reflexivity|]. discriminate.
  - eexists. eexists.
    split; [vm_compute; reflexivity|]. split; [reflexivity|].
    split; [reflexivity|]. split; vm_compute; reflexivity.
Qed.

(** C9, as amended.  For every name made by the constructor whose value
    is ASCII text of at most 15 bytes and whose scope labels have at most
    255 bytes each in UTF-8, encoding succeeds, and the output is the
    byte 32, then 32 letters of ['A'..'P'], then the labels, each behind
    its length, then one zero byte. *)
Theorem to_bytes_shape (v : str) (s : option str) (p : Z) (n : NBName.t) :
  __init__ v s p = Ok n ->
  ascii_text (value n) = true ->
  len (value n) <= 15 ->
  forallb (fits_bytes 255) (labels_of (scope n)) = true ->
  exists name labels,
    to_bytes n = Ok (32 :: name ++ concat (map wire_label labels) ++ [0]) /\
    List.length name = 32%nat /\
    forallb is_letter name = true /\
    mapM encode (labels_of (scope n)) = Ok labels.
Proof.
  intros Hinit Hv Hlen Hl.
  destruct (init_inv _ _ _ _ Hinit) as (_ & Hb & Hn).
  assert (Hp : List.length (purpose n) = 1%nat) by (rewrite Hn; reflexivity).
  destruct (labels_encoded _ _ Hl) as (bs & Ebs & _ & Hbs).
  exists (concat (map letters (padding (value n) ++ purpose n))), bs.
  split; [|split; [|split]].
  - rewrite (to_bytes_encoded n bs Hv Hlen Hp Ebs Hbs). reflexivity.
  - rewrite length_concat_letters, length_app, length_padding, Hp by exact Hlen.
    reflexivity.
  - apply concat_letters_range.
  - exact Ebs.
Qed.

Lemma to_bytes_shape_witness :
  exists name labels,
    to_bytes (mk (lit "FILESRV") (lit "WORKGROUP.LAN") [32])
    = Ok (32 :: name ++ concat (map wire_label labels) ++ [0]) /\
    List.length name = 32%nat /\
    forallb is_letter name = true /\
    mapM encode (labels_of (lit "WORKGROUP.LAN")) = Ok labels.
Proof.
  apply (to_bytes_shape (lit "FileSrv") (Some (lit "workgroup.lan")) 32
           (mk (lit "FILESRV") (lit "WORKGROUP.LAN") [32]));
    try reflexivity.
  unfold len. simpl. lia.
Defined.

(** C9 as stated fails.  The constructor counts the characters of the
    value it is given.  It accepts U+00C9, whose name is padded to
    fifteen characters of sixteen bytes, and eight times U+00DF, which
    it stores as sixteen letters S: both outputs start with the length
    byte 34.  It also accepts a scope label of 256 characters, on which
    [to_bytes] raises [ValueError] and has no output. *)
Lemma to_bytes_shape_fails :
  (exists n out,
     __init__ [201] None 0 = Ok n /\ value n = [201] /\
     to_bytes n = Ok out /\ hd 0 out = 34 /\ List.length out = 36%nat) /\
  (exists n out,
     __init__ (repeat 223 8) None 0 = Ok n /\ value n = repeat 83 16 /\
     to_bytes n = Ok out /\ hd 0 out = 34 /\ List.length out = 36%nat) /\
  (exists n,
     __init__ (lit "A") (Some (repeat 65 256)) 0 = Ok n /\
     to_bytes n = Raise (ValueError ByteRange)).
Proof.
  split; [|split].
  - eexists. eexists. split; [vm_compute; reflexivity|]. split; [reflexivity|].
    split; [vm_compute; reflexivity|]. split; reflexivity.
  - eexists. eexists. split; [vm_compute; reflexivity|]. split; [reflexivity|].
    split; [vm_compute; reflexivity|]. split; reflexivity.
  - eexists. split; [reflexivity|]. vm_compute. reflexivity.
Qed.

(** C6.  The wildcard name with purpose 0x00 and no scope encodes to the
    byte 0x20, the 32 letters "CKAAAAAAAAAAAAAAAAAAAAAAAAAAAAAA" and the
    byte 0x00. *)
Theorem wildcard_vector :
  (n <- __init__ (lit "*") None NB_NAME_PURPOSE_WORKSTATION ;; to_bytes n)
  = Ok ([32] ++ lit "CKAAAAAAAAAAAAAAAAAAAAAAAAAAAAAA" ++ [0]).
Proof. vm_compute. reflexivity. Qed.

(** The guard of the constructor counts characters: it raises on a value
    of 16 characters, before anything is encoded, and accepts a value of
    15.  On ASCII text the characters are the bytes, and what is stored
    is the upper-cased value at its full length. *)
Lemma length_guard (v : str) (s : option str) (p : Z) :
  (len v = 16 -> __init__ v s p = Raise (ValueError NameTooLong)) /\
  (len v = 15 -> is_byte p = true -> exists n, __init__ v s p = Ok n) /\
  (ascii_text v = true ->
   encode v = Ok v /\
   forall n, __init__ v s p = Ok n ->
             value n = upper v /\ len (value n) = len v).
Proof.
  split; [|split].
  - intros H. unfold __init__, NB_NAME_VALUE_LEN, NB_NAME_FULL_LEN.
    rewrite H. reflexivity.
  - intros H Hp. eexists. apply init_ok; [lia | exact Hp].
  - intros H. split; [apply encode_ascii, H|].
    intros n Hn. destruct (init_inv _ _ _ _ Hn) as (_ & _ & ->).
    cbn [value]. split; [reflexivity | apply len_upper_ascii, H].
Qed.

(** C8 fails on the code.  Eight times U+00E9 is a value of 16 bytes in
    UTF-8 and of 8 characters: the constructor, whose message speaks of
    bytes, compares the number of characters with 15 and accepts it. *)
Lemma length_guard_counts_characters :
  exists b,
    encode (repeat 233 8) = Ok b /\ len b = 16 /\
    __init__ (repeat 233 8) None 0 = Ok (mk (repeat 201 8) [] [0]).
Proof.
  eexists. split; [vm_compute; reflexivity|]. split; [reflexivity|].
  vm_compute. reflexivity.
Qed.

(** C7.  [from_bytes] raises the [ValueError] of the root length on every
    non-empty buffer whose last byte is not zero, and one of its two
    [ValueError]s on every buffer whose first byte is not 32; no name is
    returned. *)
Theorem malformed_decode :
  (forall data, data <> [] -> last data 0 <> 0 ->
     from_bytes data = Raise (ValueError (RootLength (last data 0)))) /\
  (forall first rest, first <> 32 ->
     exists e, from_bytes (first :: rest) = Raise e /\
               MalformedNameError e = true).
Proof.
  split.
  - intros data Hne Hlast. unfold from_bytes.
    rewrite (index_last_nonempty data Hne), bind_Ok. unfold ZERO.
    destruct (Z.eqb_spec (last data 0) 0); [contradiction | reflexivity].
  - intros first rest Hfirst. unfold from_bytes.
    rewrite (index_last_nonempty (first :: rest)) by discriminate.
    rewrite bind_Ok. unfold ZERO.
    destruct (Z.eqb_spec (last (first :: rest) 0) 0) as [E|E]; cbn [negb].
    + rewrite index_head, bind_Ok.
      unfold NB_NAME_FULL_LEN_BYTES, NB_NAME_FULL_LEN. change (16 * 2) with 32.
      destruct (Z.eqb_spec first 32); [contradiction|]. cbn [negb].
      eexists. split; reflexivity.
    + eexists. split; reflexivity.
Qed.

Lemma malformed_decode_witness :
  from_bytes [32; 65; 1] = Raise (ValueError (RootLength 1)) /\
  exists e, from_bytes [31; 65; 0] = Raise e /\ MalformedNameError e = true.
Proof.
  split.
  - apply (proj1 malformed_decode [32; 65; 1]); discriminate.
  - apply (proj2 malformed_decode 31 [65; 0]). discriminate.
Defined.

(** C10.  On the empty buffer the read of the last byte is out of range:
    [from_bytes] raises [IndexError], which is not one of its
    [ValueError]s, and whenever it returns a name the buffer was not
    empty. *)
Theorem decode_empty :
  from_bytes [] = Raise IndexError /\
  MalformedNameError IndexError = false /\
  (forall data n, from_bytes data = Ok n -> data <> []).
Proof.
  split; [reflexivity|]. split; [reflexivity|].
  intros data n H ->. discriminate H.
Qed.

Lemma decode_empty_witness :
  [32] ++ lit "CKAAAAAAAAAAAAAAAAAAAAAAAAAAAAAA" ++ [0] <> [].
Proof.
  apply (proj2 (proj2 decode_empty) _ (mk (42 :: repeat 0 14) [] [0])).
  reflexivity.
Defined.




(** ** The claims on messages *)

(** C5, as amended.  [build_header] masks [rcode], [nm_flags], [opcode]
    and [r], whatever their values, but takes the transaction id and the
    four counts as they are: when these five are in [0 .. 65535] the
    result is a header of 12 bytes, otherwise [struct.error] is raised. *)
Theorem build_header_masks (m : NBNSMessage.t) :
  NBNSMessage.flags m
  = NBNSMessage.rcode m mod 16 + 16 * (NBNSMessage.nm_flags m mod 128)
    + 2048 * (NBNSMessage.opcode m mod 16) + 32768 * (NBNSMessage.r m mod 2) /\
  (words_fit m = true ->
   exists header,
     NBNSMessage.build_header m = Ok header /\
     header = concat (map wire_H
                [NBNSMessage.name_trn_id m; NBNSMessage.flags m;
                 NBNSMessage.qdcount m; NBNSMessage.ancount m;
                 NBNSMessage.nscount m; NBNSMessage.arcount m]) /\
     List.length header = 12%nat /\ forallb is_byte header = true) /\
  (words_fit m = false -> NBNSMessage.build_header m = Raise StructError).
Proof.
  split; [apply flags_masked|].
  unfold words_fit, NBNSMessage.build_header, pack_Hs. cbn [mapM].
  rewrite !pack_H_cases, (flags_fit m).
  split.
  - rewrite !andb_true_iff. intros ((((H1 & H2) & H3) & H4) & H5).
    rewrite H1, H2, H3, H4, H5. cbn [bind].
    eexists. split; [reflexivity|]. split; [reflexivity|].
    split; [reflexivity|].
    cbn [map concat]. rewrite !forallb_app.
    rewrite !wire_H_bytes by (assumption || apply flags_fit). reflexivity.
  - destruct (fits_H (NBNSMessage.name_trn_id m)); [|reflexivity].
    destruct (fits_H (NBNSMessage.qdcount m)); [|reflexivity].
    destruct (fits_H (NBNSMessage.ancount m)); [|reflexivity].
    destruct (fits_H (NBNSMessage.nscount m)); [|reflexivity].
    destruct (fits_H (NBNSMessage.arcount m)); [discriminate | reflexivity].
Qed.

Lemma build_header_masks_witness :
  (exists header,
     NBNSMessage.build_header (NBNSMessage.mk 0x1234 3 0x1F 0xFF 0x1F 1 0 0 0)
     = Ok header /\
     header = concat (map wire_H [0x1234; 0xFFFF; 1; 0; 0; 0]) /\
     List.length header = 12%nat /\ forallb is_byte header = true) /\
  NBNSMessage.build_header (NBNSMessage.mk 0x1234 0 0 0 0 (-1) 0 0 0)
  = Raise StructError.
Proof.
  split.
  - apply (proj1 (proj2 (build_header_masks
                           (NBNSMessage.mk 0x1234 3 0x1F 0xFF 0x1F 1 0 0 0)))).
    reflexivity.
  - apply (proj2 (proj2 (build_header_masks
                           (NBNSMessage.mk 0x1234 0 0 0 0 (-1) 0 0 0)))).
    reflexivity.
Defined.

(** C5 as stated fails: a transaction id or a count outside
    [0 .. 65535] is not masked, [struct.pack] raises. *)
Lemma build_header_raises :
  NBNSMessage.build_header (NBNSMessage.mk 0x10000 0 0 0 0 1 0 0 0)
  = Raise StructError /\
  NBNSMessage.build_header (NBNSMessage.mk 0x1234 0 0 0 0 0x10000 0 0 0)
  = Raise StructError.
Proof. split; reflexivity. Qed.

(** C3, as amended.  The header of transaction id 0x1234, r = 0, opcode
    QUERY, nm_flags RD, rcode 0, qdcount 1 and no other record is
    12 34 01 00 00 01 00 00 00 00 00 00: RD is bit 8 of the flags word. *)
Theorem header_vector :
  NBNSMessage.build_header
    (NBNSMessage.mk 0x1234 0 NB_NS_OPCODE_QUERY NB_NS_NM_FLAGS_RD 0 1 0 0 0)
  = Ok [0x12; 0x34; 0x01; 0x00; 0x00; 0x01; 0x00; 0x00; 0x00; 0x00; 0x00; 0x00].
Proof. reflexivity. Qed.

(** C3 as stated fails: the fourth byte is 0x00, not 0x10. *)
Lemma header_vector_differs :
  NBNSMessage.build_header
    (NBNSMessage.mk 0x1234 0 NB_NS_OPCODE_QUERY NB_NS_NM_FLAGS_RD 0 1 0 0 0)
  <> Ok [0x12; 0x34; 0x01; 0x10; 0x00; 0x01; 0x00; 0x00; 0x00; 0x00; 0x00; 0x00].
Proof. discriminate. Qed.

(** C2, as amended.  [question_name] is joined to [bytes] as it is, so it
    has to be the encoded name.  With transaction id 0xABCD, the bytes of
    the name FILESRV<20> and [broadcast=True], [to_bytes] gives the
    header AB CD 01 10 00 01 00 00 00 00 00 00 (r = 0, opcode 0,
    nm_flags 0x11, rcode 0, qdcount 1, the other counts 0), then the
    encoded name, then 00 20 00 01. *)
Theorem name_query_vector :
  exists n name,
    __init__ (lit "FILESRV") None 0x20 = Ok n /\
    NBName.to_bytes n = Ok name /\
    name = [32] ++ lit "EGEJEMEFFDFCFGCACACACACACACACACA" ++ [0] /\
    let q := NBNSNameQueryRequest.__init__ 0xABCD (PyBytes name) true in
    NBNSRequest.base q = NBNSMessage.mk 0xABCD 0 0 0x11 0 1 0 0 0 /\
    NBNSMessage.build_header (NBNSRequest.base q)
    = Ok [0xAB; 0xCD; 0x01; 0x10; 0x00; 0x01; 0x00; 0x00; 0x00; 0x00; 0x00; 0x00] /\
    NBNSRequest.to_bytes q
    = Ok ([0xAB; 0xCD; 0x01; 0x10; 0x00; 0x01; 0x00; 0x00; 0x00; 0x00; 0x00; 0x00]
          ++ name ++ [0x00; 0x20; 0x00; 0x01]).
Proof.
  eexists. eexists. split; [reflexivity|].
  split; [vm_compute; reflexivity|].
  split; [reflexivity|]. cbv zeta.
  split; [reflexivity|]. split; reflexivity.
Qed.

(** C2 as stated fails: with the name object itself as [question_name],
    [build_query_entry] adds an [NBName] and [bytes] and raises
    [TypeError]. *)
Lemma name_query_of_name_object :
  exists n,
    __init__ (lit "FILESRV") None 0x20 = Ok n /\
    NBNSRequest.to_bytes (NBNSNameQueryRequest.__init__ 0xABCD (PyNBName n) true)
    = Raise TypeError.
Proof. eexists. split; reflexivity. Qed.

(** * Further properties *)

(** ** Half-octets *)

Lemma land_15_mod (x : Z) : Z.land 15 x = x mod 16.
Proof. exact (land_low_bits 4 x ltac:(lia)). Qed.

Lemma letters_low_bits (v : Z) : letters (v mod 256) = letters v.
Proof.
  unfold letters. rewrite !land_15_mod, !Z.shiftr_div_pow2 by lia.
  change (2 ^ 4) with 16.
  assert (E1 : (v mod 256 / 16) mod 16 = (v / 16) mod 16)
    by (Z.div_mod_to_equations; lia).
  assert (E2 : (v mod 256) mod 16 = v mod 16)
    by (Z.div_mod_to_equations; lia).
  rewrite E1, E2. reflexivity.
Qed.

(** [encode_byte] never raises, whatever the integer: it takes the low
    eight bits and gives two letters of ['A'..'P']. *)
Theorem encode_byte_letters (v : Z) :
  exists hi lo,
    encode_byte v = Ok [hi; lo] /\
    is_letter hi = true /\ is_letter lo = true /\
    encode_byte (v mod 256) = Ok [hi; lo].
Proof.
  exists (Z.land 15 (Z.shiftr v 4) + ORD_A), (Z.land 15 v + ORD_A).
  assert (H := letters_range v). unfold letters in H. cbn [forallb] in H.
  rewrite andb_true_r in H. apply andb_true_iff in H. destruct H as [H1 H2].
  split; [apply encode_byte_total|]. split; [exact H1|]. split; [exact H2|].
  rewrite encode_byte_total, letters_low_bits. reflexivity.
Qed.

(** [decode_word] gives back every byte from the two letters that
    [encode_byte] makes of it. *)
Theorem decode_word_encode_byte (v : Z) :
  is_byte v = true ->
  exists hi lo, encode_byte v = Ok [hi; lo] /\ decode_word hi lo = Ok [v].
Proof.
  intros Hv. eexists. eexists. split; [apply encode_byte_total|].
  apply decode_word_letters, Hv.
Qed.

Lemma decode_word_encode_byte_witness :
  exists hi lo, encode_byte 0x20 = Ok [hi; lo] /\ decode_word hi lo = Ok [0x20].
Proof. apply (decode_word_encode_byte 0x20). reflexivity. Defined.

Lemma letters_round_trip_all :
  forallb (fun hi => forallb (letters_round_trip hi) (map Z.of_nat (seq 65 16)))
    (map Z.of_nat (seq 65 16)) = true.
Proof. vm_compute. reflexivity. Qed.

Lemma is_letter_in (b : Z) :
  is_letter b = true -> In b (map Z.of_nat (seq 65 16)).
Proof.
  unfold is_letter. rewrite andb_true_iff, !Z.leb_le. intros H.
  apply in_map_iff. exists (Z.to_nat b). split; [lia | apply in_seq; lia].
Qed.

(** On two letters of ['A'..'P'] [decode_word] gives a byte, and
    [encode_byte] gives the two letters back from it. *)
Theorem encode_byte_decode_word (hi lo : Z) :
  is_letter hi = true -> is_letter lo = true ->
  exists w,
    decode_word hi lo = Ok [w] /\ is_byte w = true /\
    encode_byte w = Ok [hi; lo].
Proof.
  intros Hhi Hlo. assert (H := letters_round_trip_all).
  rewrite forallb_forall in H. specialize (H hi (is_letter_in hi Hhi)).
  rewrite forallb_forall in H. specialize (H lo (is_letter_in lo Hlo)).
  unfold letters_round_trip in H.
  destruct (decode_word hi lo) as [[|w [|? ?]]|e]; try discriminate H.
  apply andb_true_iff in H. destruct H as [Hw H].
  exists w. split; [reflexivity|]. split; [exact Hw|].
  destruct (encode_byte w) as [[|hi' [|lo' [|? ?]]]|e]; try discriminate H.
  apply andb_true_iff in H. destruct H as [E1 E2].
  apply Z.eqb_eq in E1, E2. subst. reflexivity.
Qed.

Lemma encode_byte_decode_word_witness :
  exists w,
    decode_word 67 75 = Ok [w] /\ is_byte w = true /\
    encode_byte w = Ok [67; 75].
Proof. apply (encode_byte_decode_word 67 75); reflexivity. Defined.

(** [decode_bytes] gives back every sequence of bytes from the letters
    that [_encode_value] joins for it. *)
Theorem decode_bytes_encode (l : bytes) :
  forallb is_byte l = true ->
  exists pairs,
    mapM encode_byte l = Ok pairs /\ decode_bytes (concat pairs) = Ok l.
Proof.
  intros H. exists (map letters l).
  split; [apply mapM_encode_byte | apply decode_bytes_letters, H].
Qed.

Lemma decode_bytes_encode_witness :
  exists pairs,
    mapM encode_byte (lit "FILESRV") = Ok pairs /\
    decode_bytes (concat pairs) = Ok (lit "FILESRV").
Proof. apply (decode_bytes_encode (lit "FILESRV")). reflexivity. Defined.

Lemma decode_word_ok (hi lo : Z) (w : bytes) :
  decode_word hi lo = Ok w ->
  w = [Z.lor (Z.shiftl (hi - 65) 4) (lo - 65)] /\ 65 <= hi /\ 65 <= lo.
Proof.
  unfold decode_word, mk_bytes, ORD_A. cbn [forallb]. rewrite andb_true_r.
  destruct (is_byte _) eqn:E; [|discriminate].
  intros H. injection H as <-. split; [reflexivity|].
  apply is_byte_iff in E. destruct E as [E _].
  apply Z.lor_nonneg in E. destruct E as [E1 E2].
  apply Z.shiftl_nonneg in E1. lia.
Qed.

Lemma decode_bytes_ok (n : nat) :
  forall data out,
  (List.length data <= n)%nat -> decode_bytes data = Ok out ->
  len data = 2 * len out /\ Forall (fun b => 65 <= b) data.
Proof.
  induction n as [|n IH]; intros data out Hn H.
  - destruct data; [|simpl in Hn; lia]. injection H as <-. split; [reflexivity | constructor].
  - destruct data as [|hi [|lo rest]].
    + injection H as <-. split; [reflexivity | constructor].
    + discriminate H.
    + cbn [decode_bytes] in H.
      destruct (decode_word hi lo) as [w|e] eqn:Ew; [|discriminate H].
      rewrite bind_Ok in H.
      destruct (decode_bytes rest) as [ws|e] eqn:Er; [|discriminate H].
      rewrite bind_Ok in H. injection H as <-.
      destruct (decode_word_ok _ _ _ Ew) as (-> & Hhi & Hlo).
      destruct (IH rest ws ltac:(simpl in Hn; lia) Er) as [Hlen Hall].
      split.
      * rewrite !len_cons. cbn [app]. rewrite len_cons. lia.
      * repeat constructor; assumption.
Qed.

(** Whenever [decode_bytes] returns, its input had an even length, twice
    that of the result, and no byte below ['A']; an input of odd length
    is never decoded. *)
Theorem decode_bytes_length (data out : bytes) :
  decode_bytes data = Ok out ->
  len data = 2 * len out /\ Forall (fun b => 65 <= b) data.
Proof. apply (decode_bytes_ok (List.length data)). lia. Qed.

Lemma decode_bytes_length_witness :
  len (lit "CKAA") = 2 * len [42; 0] /\ Forall (fun b => 65 <= b) (lit "CKAA").
Proof. apply (decode_bytes_length (lit "CKAA") [42; 0]). reflexivity. Defined.

(** ** Scope labels *)

(** [decode_scope] gives back the scope from the labels that [to_bytes]
    packs, for ASCII labels of at most 255 bytes: [pack_item] then
    [decode_scope] is ['.'.join]. *)
Theorem decode_scope_pack_items (ls : list str) :
  Forall (fun l => ascii_text l = true) ls ->
  forallb (short_label 255) ls = true ->
  exists packed,
    mapM pack_item (map StrChunk ls) = Ok packed /\
    decode_scope (concat packed) = Ok (join 46 ls).
Proof.
  intros Ha Hs. exists (map wire_label ls).
  split; [apply pack_labels; assumption | apply decode_scope_labels, Ha].
Qed.

Lemma decode_scope_pack_items_witness :
  exists packed,
    mapM pack_item (map StrChunk [lit "WORKGROUP"; lit ""; lit "LAN"]) = Ok packed /\
    decode_scope (concat packed) = Ok (lit "WORKGROUP..LAN").
Proof.
  apply (decode_scope_pack_items [lit "WORKGROUP"; lit ""; lit "LAN"]);
    [repeat constructor | reflexivity].
Defined.

Lemma decode_raises (n : nat) :
  forall b e, (List.length b <= n)%nat -> decode b = Raise e ->
              e = UnicodeDecodeError.
Proof.
  induction n as [|n IH]; intros b e Hn H.
  - destruct b; [discriminate H | simpl in Hn; lia].
  - destruct b as [|b0 r0]; [discriminate H|].
    cbn [decode] in H. simpl in Hn.
    assert (Hrec : forall r x (k : str -> str),
               (List.length r <= n)%nat ->
               (s <- decode r ;; Ok (k s)) = Raise x -> x = UnicodeDecodeError).
    { intros r x k Hr Hx. destruct (decode r) as [s|e'] eqn:Er; [discriminate Hx|].
      injection Hx as <-. exact (IH r e' Hr Er). }
    destruct (between 0 127 b0).
    { exact (Hrec r0 e (cons b0) ltac:(lia) H). }
    destruct r0 as [|b1 r1]; [injection H as <-; reflexivity|]. simpl in Hn.
    destruct (between 194 223 b0 && between 128 191 b1).
    { exact (Hrec r1 e (cons _) ltac:(lia) H). }
    destruct r1 as [|b2 r2]; [injection H as <-; reflexivity|]. simpl in Hn.
    match type of H with (if ?c then _ else _) = _ => destruct c end.
    { exact (Hrec r2 e (cons _) ltac:(lia) H). }
    destruct r2 as [|b3 r3]; [injection H as <-; reflexivity|]. simpl in Hn.
    match type of H with (if ?c then _ else _) = _ => destruct c end.
    { exact (Hrec r3 e (cons _) ltac:(lia) H). }
    injection H as <-. reflexivity.
Qed.

Lemma index_in_range {A : Type} (l : list A) (i : Z) :
  0 <= i < len l -> exists a, index l i = Ok a /\ In a l.
Proof.
  intros Hi. unfold index.
  destruct (i <? 0) eqn:E; [apply Z.ltb_lt in E; lia|]. rewrite E.
  destruct (nth_error l (Z.to_nat i)) as [a|] eqn:En.
  - exists a. split; [reflexivity | apply nth_error_In in En; exact En].
  - apply nth_error_None in En. unfold len in Hi. lia.
Qed.

Lemma decode_scope_loop_raises (data : bytes) :
  forallb is_byte data = true ->
  forall (fuel : nat) (offset : Z) (chunks : list str) (e : exn),
  0 <= offset ->
  decode_scope_loop fuel data offset chunks = Raise e -> e = UnicodeDecodeError.
Proof.
  intros Hdata. induction fuel as [|fuel IH]; intros offset chunks e Hoff H.
  - simpl in H. destruct (offset <? len data); discriminate H.
  - rewrite decode_scope_loop_S in H.
    destruct (offset <? len data) eqn:E; [|discriminate H].
    apply Z.ltb_lt in E.
    destruct (index_in_range data offset ltac:(lia)) as (length & Hi & Hin).
    rewrite Hi, bind_Ok in H.
    rewrite forallb_forall in Hdata. apply Hdata, is_byte_iff in Hin.
    destruct (decode _) as [chunk|e'] eqn:Ed.
    + rewrite bind_Ok in H. refine (IH (offset + 1 + length) _ _ _ H). lia.
    + injection H as <-. apply (decode_raises _ _ _ (le_n _) Ed).
Qed.

(** On a buffer of bytes [decode_scope] reads no index out of range: the
    one exception it can raise is the [UnicodeDecodeError] of a label
    that is not UTF-8. *)
Theorem decode_scope_raises (data : bytes) (e : exn) :
  forallb is_byte data = true ->
  decode_scope data = Raise e -> e = UnicodeDecodeError.
Proof.
  intros Hdata H. unfold decode_scope in H.
  destruct data as [|b data]; [discriminate H|].
  destruct (decode_scope_loop _ _ _ _) as [chunks|e'] eqn:El; [discriminate H|].
  injection H as <-.
  apply (decode_scope_loop_raises _ Hdata _ _ _ _ (Z.le_refl 0) El).
Qed.

Lemma decode_scope_raises_witness : UnicodeDecodeError = UnicodeDecodeError.
Proof.
  apply (decode_scope_raises [2; 65; 255] UnicodeDecodeError); reflexivity.
Defined.

Lemma ascii_text_firstn (n : nat) (l : list Z) :
  ascii_text l = true -> ascii_text (firstn n l) = true.
Proof.
  intros H. rewrite <- (firstn_skipn n l) in H.
  apply ascii_text_app in H. apply H.
Qed.

Lemma ascii_text_skipn (n : nat) (l : list Z) :
  ascii_text l = true -> ascii_text (skipn n l) = true.
Proof.
  intros H. rewrite <- (firstn_skipn n l) in H.
  apply ascii_text_app in H. apply H.
Qed.

Lemma decode_scope_loop_ascii (data : bytes) :
  ascii_text data = true ->
  forall (fuel : nat) (offset : Z) (chunks : list str),
  0 <= offset ->
  exists chunks', decode_scope_loop fuel data offset chunks = Ok chunks'.
Proof.
  intros Hdata. induction fuel as [|fuel IH]; intros offset chunks Hoff.
  - simpl. destruct (offset <? len data); eexists; reflexivity.
  - rewrite decode_scope_loop_S.
    destruct (offset <? len data) eqn:E; [|eexists; reflexivity].
    apply Z.ltb_lt in E.
    destruct (index_in_range data offset ltac:(lia)) as (length & Hi & Hin).
    rewrite Hi, bind_Ok.
    assert (Hl : 0 <= length).
    { unfold ascii_text in Hdata. rewrite forallb_forall in Hdata.
      apply Hdata, is_ascii_iff in Hin. lia. }
    rewrite decode_ascii, bind_Ok
      by (unfold slice; apply ascii_text_firstn, ascii_text_skipn, Hdata).
    apply IH. lia.
Qed.

(** Every ASCII buffer is a scope for [decode_scope]: it checks neither
    the length bytes nor the bytes of the labels, and returns. *)
Theorem decode_scope_ascii (data : bytes) :
  ascii_text data = true -> exists scope, decode_scope data = Ok scope.
Proof.
  intros Hdata. unfold decode_scope.
  destruct data as [|b data]; [eexists; reflexivity|].
  destruct (decode_scope_loop_ascii _ Hdata (List.length (b :: data)) 0 []
              (Z.le_refl 0)) as (chunks & ->).
  eexists. reflexivity.
Qed.

Lemma decode_scope_ascii_witness :
  exists scope, decode_scope [100; 65; 0; 0; 1] = Ok scope.
Proof. apply (decode_scope_ascii [100; 65; 0; 0; 1]). reflexivity. Defined.

(** ** Names *)

(** The constructor in full: a value of more than 15 characters raises
    whatever the purpose is; otherwise a purpose outside [0 .. 255]
    raises the [ValueError] of [bytes]; otherwise the name is made, and
    [scope=None] and [scope=''] give the same name. *)
Theorem init_outcomes (v : str) (s : option str) (p : Z) :
  (15 < len v -> __init__ v s p = Raise (ValueError NameTooLong)) /\
  (len v <= 15 -> is_byte p = false ->
   __init__ v s p = Raise (ValueError ByteRange)) /\
  (len v <= 15 -> is_byte p = true -> exists n, __init__ v s p = Ok n) /\
  __init__ v None p = __init__ v (Some []) p.
Proof.
  unfold __init__, NB_NAME_VALUE_LEN, NB_NAME_FULL_LEN, mk_bytes.
  change (16 - 1) with 15. cbn [forallb]. rewrite andb_true_r.
  split; [|split; [|split]].
  - intros H. destruct (Z.gtb_spec (len v) 15); [reflexivity | lia].
  - intros H Hp. destruct (Z.gtb_spec (len v) 15); [lia|]. rewrite Hp. reflexivity.
  - intros H Hp. destruct (Z.gtb_spec (len v) 15); [lia|]. rewrite Hp.
    eexists. reflexivity.
  - reflexivity.
Qed.

Lemma init_outcomes_witness :
  __init__ (lit "ABCDEFGHIJKLMNOPQ") None 256 = Raise (ValueError NameTooLong) /\
  __init__ (lit "A") None 256 = Raise (ValueError ByteRange) /\
  exists n, __init__ (lit "A") None 255 = Ok n.
Proof.
  split; [|split].
  - apply (proj1 (init_outcomes (lit "ABCDEFGHIJKLMNOPQ") None 256)). reflexivity.
  - apply (proj1 (proj2 (init_outcomes (lit "A") None 256)));
      [unfold len; simpl; lia | reflexivity].
  - apply (proj1 (proj2 (proj2 (init_outcomes (lit "A") None 255))));
      [unfold len; simpl; lia | reflexivity].
Defined.

(** The constructor is idempotent: from the value and the scope of a
    name it made and the byte of its purpose it makes the same name
    again, as long as the stored value has at most 15 characters. *)
Theorem init_idempotent (v : str) (s : option str) (p q : Z) (n : NBName.t) :
  __init__ v s p = Ok n ->
  len (value n) <= 15 ->
  index (purpose n) 0 = Ok q ->
  __init__ (value n) (Some (scope n)) q = Ok n.
Proof.
  intros H Hlen Hq. destruct (init_inv _ _ _ _ H) as (_ & Hb & ->).
  cbn [value scope purpose] in *. rewrite index_head in Hq.
  apply Ok_inj in Hq. subst q.
  rewrite init_ok by assumption.
  rewrite upper_idem, init_scope_fixed. reflexivity.
Qed.

Lemma init_idempotent_witness :
  __init__ (lit "STRASSE") (Some (lit "WORKGROUP.LAN")) 32
  = Ok (mk (lit "STRASSE") (lit "WORKGROUP.LAN") [32]).
Proof.
  apply (init_idempotent [115; 116; 114; 97; 223; 101]
           (Some (lit "workgroup.lan")) 32 32
           (mk (lit "STRASSE") (lit "WORKGROUP.LAN") [32]));
    try reflexivity.
  unfold len. simpl. lia.
Defined.

Lemma len_wire_labels_split (s : str) :
  len (concat (map wire_label (split 46 s))) = len s + 1.
Proof.
  induction s as [|c s IH]; [reflexivity|].
  cbn [split]. destruct (c =? 46).
  - cbn [map concat]. rewrite len_app, IH, len_cons.
    change (len (wire_label [])) with 1. lia.
  - assert (H := split_not_nil 46 s).
    destruct (split 46 s) as [|w ws]; [contradiction|].
    cbn [map concat] in *. unfold wire_label at 1 in IH.
    unfold wire_label at 1. rewrite len_app in *.
    rewrite !len_cons in *. lia.
Qed.

(** The size of an encoded name whose value is ASCII of at most 15
    characters: 34 bytes without a scope, and with an ASCII scope one
    byte for every character of it and one more. *)
Theorem to_bytes_length (v : str) (s : option str) (p : Z) (n : NBName.t) :
  __init__ v s p = Ok n ->
  ascii_text (value n) = true ->
  len (value n) <= 15 ->
  ascii_text (scope n) = true ->
  forallb (short_label 255) (labels_of (scope n)) = true ->
  exists out,
    to_bytes n = Ok out /\
    len out = match scope n with
              | [] => 34
              | _ => 35 + len (scope n)
              end.
Proof.
  intros Hinit Hv Hlen Hs Hl.
  destruct (init_inv _ _ _ _ Hinit) as (_ & Hb & Hn).
  assert (Hp : List.length (purpose n) = 1%nat) by (rewrite Hn; reflexivity).
  eexists. split; [apply (to_bytes_ok n Hv Hlen Hp Hs Hl)|].
  rewrite !len_app, len_cons.
  replace (len (concat (map letters (padding (value n) ++ purpose n)))) with 32
    by (unfold len; rewrite length_concat_letters, length_app, length_padding, Hp
          by exact Hlen; reflexivity).
  change (len [0]) with 1.
  destruct (scope n) as [|c sc] eqn:E; [reflexivity|].
  unfold labels_of. rewrite len_wire_labels_split. lia.
Qed.

Lemma to_bytes_length_witness :
  exists out,
    to_bytes (mk (lit "FILESRV") (lit "WORKGROUP.LAN") [32]) = Ok out /\
    len out = 35 + len (lit "WORKGROUP.LAN").
Proof.
  apply (to_bytes_length (lit "FileSrv") (Some (lit "workgroup.lan")) 32
           (mk (lit "FILESRV") (lit "WORKGROUP.LAN") [32]));
    try reflexivity.
  unfold len. simpl. lia.
Defined.

Lemma pack_label_cases (l : str) :
  ascii_text l = true ->
  pack_item (StrChunk l)
  = if short_label 255 l then Ok (wire_label l) else Raise (ValueError ByteRange).
Proof.
  intros Ha. destruct (short_label 255 l) eqn:E; [apply pack_label; assumption|].
  unfold pack_item. rewrite (encode_ascii l Ha), bind_Ok.
  unfold mk_bytes. cbn [forallb]. unfold is_byte.
  unfold short_label in E. apply Z.leb_gt in E.
  replace (len l <? 256) with false by (symmetry; apply Z.ltb_ge; lia).
  rewrite andb_false_r. cbn [andb]. reflexivity.
Qed.

Lemma pack_labels_long (ls : list str) :
  Forall (fun l => ascii_text l = true) ls ->
  forallb (short_label 255) ls = false ->
  mapM pack_item (map StrChunk ls) = Raise (ValueError ByteRange).
Proof.
  induction 1 as [|l ls Hl Hls IH]; intros Hs; [discriminate Hs|].
  cbn [map mapM forallb] in *. rewrite (pack_label_cases l Hl).
  destruct (short_label 255 l); [|reflexivity].
  cbn [andb] in Hs. rewrite bind_Ok, (IH Hs). reflexivity.
Qed.

(** [to_bytes] raises [ValueError] on every ASCII name of the
    constructor that has a scope label of more than 255 bytes. *)
Theorem to_bytes_long_label (v : str) (s : option str) (p : Z) (n : NBName.t) :
  __init__ v s p = Ok n ->
  ascii_text (value n) = true ->
  ascii_text (scope n) = true ->
  forallb (short_label 255) (labels_of (scope n)) = false ->
  to_bytes n = Raise (ValueError ByteRange).
Proof.
  intros Hinit Hv Hs Hl.
  destruct (init_inv _ _ _ _ Hinit) as (Hlen & Hb & Hn).
  assert (Hlen' : len (value n) <= 45).
  { rewrite Hn. cbn [value]. assert (H := len_upper_bounds v). lia. }
  assert (Hp : List.length (purpose n) = 1%nat) by (rewrite Hn; reflexivity).
  unfold to_bytes. rewrite (encode_value_ok n Hv), bind_Ok.
  replace (match scope n with [] => [] | _ :: _ => map StrChunk (split 46 (scope n)) end)
    with (map StrChunk (labels_of (scope n)))
    by (destruct (scope n); reflexivity).
  cbn [app mapM]. unfold pack_item at 1. rewrite bind_Ok.
  rewrite mk_bytes_ok, bind_Ok.
  2:{ cbn [forallb]. rewrite andb_true_r. apply is_byte_iff.
      assert (E : len (concat (map letters (padding (value n) ++ purpose n)))
                  = 2 * (Z.of_nat (List.length (padding (value n))) + 1))
        by (unfold len; rewrite length_concat_letters, length_app, Hp; lia).
      rewrite E.
      assert (Hpad : Z.of_nat (List.length (padding (value n))) <= 45).
      { unfold padding. destruct (str_eqb (value n) WILDCARD); [simpl; lia|].
        fold (len (NB_NAME_FMT_format (value n))). rewrite length_format_any.
        assert (H := len_nonneg (value n)). lia. }
      lia. }
  rewrite (pack_labels_long _ (labels_of_ascii _ Hs) Hl). reflexivity.
Qed.

Lemma to_bytes_long_label_witness :
  to_bytes (mk (lit "A") (lit "B." ++ repeat 67 256) [0])
  = Raise (ValueError ByteRange).
Proof.
  apply (to_bytes_long_label (lit "a") (Some (lit "b." ++ repeat 99 256)) 0
           (mk (lit "A") (lit "B." ++ repeat 67 256) [0]));
    reflexivity.
Defined.

Lemma slice_name (first : Z) (rest : bytes) :
  slice (first :: rest) 1 33 = firstn 32 rest.
Proof.
  unfold slice, clamp. rewrite len_cons. assert (H := len_nonneg rest).
  change (1 <? 0) with false. change (33 <? 0) with false. cbv iota.
  rewrite (Z.min_l 1) by lia. change (Z.to_nat 1) with 1%nat. cbn [skipn].
  destruct (Z.le_gt_cases 32 (len rest)) as [Hle|Hgt].
  - rewrite Z.min_l by lia. reflexivity.
  - rewrite Z.min_r by lia.
    replace (Z.to_nat (1 + len rest - 1)) with (List.length rest)
      by (unfold len; lia).
    rewrite firstn_all. symmetry. apply firstn_all2. unfold len in Hgt. lia.
Qed.

Lemma index_ok_range {A : Type} (l : list A) (i : Z) (a : A) :
  0 <= i -> index l i = Ok a -> i < len l.
Proof.
  intros Hi. unfold index.
  destruct (i <? 0) eqn:E; [apply Z.ltb_lt in E; lia|]. rewrite E.
  destruct (nth_error l (Z.to_nat i)) eqn:En; [|discriminate].
  intros _. assert (H : nth_error l (Z.to_nat i) <> None) by (rewrite En; discriminate).
  apply nth_error_Some in H. unfold len. lia.
Qed.

Lemma decode_value_and_purpose_ok (data : bytes) (v : str) (p : Z) :
  decode_value_and_purpose data = Ok (v, p) ->
  16 <= len data /\ In p data /\
  exists s, decode (slice_to data 15) = Ok s /\ v = strip s.
Proof.
  unfold decode_value_and_purpose, NB_NAME_VALUE_LEN, NB_NAME_FULL_LEN, int_eq_str.
  change (16 - 1) with 15.
  destruct (index (slice_to data 15) 0) as [first|e]; [|discriminate].
  rewrite bind_Ok.
  destruct (decode (slice_to data 15)) as [s|e]; [|discriminate].
  rewrite !bind_Ok.
  destruct (index data 15) as [p'|e] eqn:Ei; [|discriminate].
  rewrite bind_Ok. intros H. injection H as <- <-.
  split; [|split].
  - apply index_ok_range in Ei; lia.
  - apply (index_In _ _ _ Ei).
  - exists s. split; reflexivity.
Qed.

Lemma from_bytes_ok (data : bytes) (n : NBName.t) :
  from_bytes data = Ok n ->
  exists rest full s scope p,
    data = 32 :: rest /\ last data 0 = 0 /\
    decode_bytes (firstn 32 rest) = Ok full /\
    decode (slice_to full 15) = Ok s /\
    16 <= len full /\ In p full /\
    decode_scope (slice data 33 (-1)) = Ok scope /\
    __init__ (strip s) (Some scope) p = Ok n.
Proof.
  intros H. destruct data as [|first rest]; [discriminate H|].
  unfold from_bytes in H.
  rewrite (index_last_nonempty (first :: rest)) in H by discriminate.
  rewrite bind_Ok in H. unfold ZERO in H.
  destruct (Z.eqb_spec (last (first :: rest) 0) 0) as [Hlast|]; [|discriminate H].
  cbn [negb] in H. rewrite index_head, bind_Ok in H.
  unfold NB_NAME_FULL_LEN_BYTES, NB_NAME_FULL_LEN in H. change (16 * 2) with 32 in H.
  destruct (Z.eqb_spec first 32) as [->|]; [|discriminate H].
  cbn [negb] in H. change (0 + 1 + 32) with 33 in H. change (0 + 1) with 1 in H.
  rewrite slice_name in H.
  destruct (decode_bytes (firstn 32 rest)) as [full|e] eqn:Ed; [|discriminate H].
  rewrite bind_Ok in H.
  destruct (decode_value_and_purpose full) as [[v p]|e] eqn:Ev; [|discriminate H].
  rewrite bind_Ok in H. cbn [fst snd] in H.
  destruct (decode_scope _) as [scope|e] eqn:Es; [|discriminate H].
  rewrite bind_Ok in H.
  destruct (decode_value_and_purpose_ok _ _ _ Ev) as (Hlen & Hp & s & Hs & ->).
  exists rest, full, s, scope, p. repeat split; assumption.
Qed.

(** Whenever [from_bytes] returns a name, the buffer has at least 34
    bytes, starts with 32 and ends with 0, its 32 name bytes are none
    below ['A'], and the purpose of the name is one byte. *)
Theorem from_bytes_min_length (data : bytes) (n : NBName.t) :
  from_bytes data = Ok n ->
  34 <= len data /\ hd 0 data = 32 /\ last data 0 = 0 /\
  Forall (fun b => 65 <= b) (firstn 32 (tl data)) /\
  exists p, purpose n = [p] /\ is_byte p = true.
Proof.
  intros H.
  destruct (from_bytes_ok _ _ H)
    as (rest & full & s & scope & p & -> & Hlast & Hd & _ & Hlen & _ & _ & Hinit).
  destruct (decode_bytes_ok _ _ _ (le_n _) Hd) as [Hl Hall].
  destruct (init_inv _ _ _ _ Hinit) as (_ & Hb & ->).
  cbn [hd tl purpose]. split; [|split; [reflexivity|split; [exact Hlast|split;
    [exact Hall | exists p; split; [reflexivity | exact Hb]]]]].
  rewrite len_cons.
  assert (Hf : (List.length (firstn 32 rest) <= List.length rest)%nat)
    by (rewrite length_firstn; lia).
  destruct (Z.eq_dec (len rest) 32) as [E|E].
  - rewrite firstn_all2 in Hall by (unfold len in E; lia).
    destruct rest as [|b rest]; [discriminate E|].
    change (last (32 :: b :: rest) 0) with (last (b :: rest) 0) in Hlast.
    assert (Hin : In (last (b :: rest) 0) (b :: rest)).
    { destruct (exists_last (l := b :: rest) ltac:(discriminate)) as (l' & a & ->).
      rewrite last_last. apply in_or_app. right. left. reflexivity. }
    rewrite Forall_forall in Hall. specialize (Hall _ Hin). lia.
  - unfold len in *. lia.
Qed.

Lemma from_bytes_min_length_witness :
  34 <= len ([32] ++ lit "CKAAAAAAAAAAAAAAAAAAAAAAAAAAAAAA" ++ [0]) /\
  hd 0 ([32] ++ lit "CKAAAAAAAAAAAAAAAAAAAAAAAAAAAAAA" ++ [0]) = 32 /\
  last ([32] ++ lit "CKAAAAAAAAAAAAAAAAAAAAAAAAAAAAAA" ++ [0]) 0 = 0 /\
  Forall (fun b => 65 <= b)
    (firstn 32 (tl ([32] ++ lit "CKAAAAAAAAAAAAAAAAAAAAAAAAAAAAAA" ++ [0]))) /\
  exists p, purpose (mk decoded_wildcard [] [0]) = [p] /\ is_byte p = true.
Proof.
  apply (from_bytes_min_length
           ([32] ++ lit "CKAAAAAAAAAAAAAAAAAAAAAAAAAAAAAA" ++ [0])
           (mk decoded_wildcard [] [0])).
  reflexivity.
Defined.

(** A name that [from_bytes] returns has no white space at either end of
    its value, when the value is ASCII. *)
Theorem from_bytes_stripped (data : bytes) (n : NBName.t) :
  from_bytes data = Ok n ->
  ascii_text (value n) = true ->
  strip (value n) = value n.
Proof.
  intros H _.
  destruct (from_bytes_ok _ _ H)
    as (rest & full & s & scope & p & _ & _ & _ & _ & _ & _ & _ & Hinit).
  destruct (init_inv _ _ _ _ Hinit) as (_ & _ & ->).
  cbn [value]. apply strip_upper_strip.
Qed.

Lemma from_bytes_stripped_witness :
  strip (lit "A B") = lit "A B".
Proof.
  apply (from_bytes_stripped
           ([32] ++ lit "CAEBCAECCACACACACACACACACACACAAA" ++ [0])
           (mk (lit "A B") [] [0]));
    reflexivity.
Defined.

(** What the wildcard decodes to.  For every purpose and every ASCII
    scope with labels of at most 255 bytes, the encoding of the name
    ['*'] decodes to a name with the same scope and purpose whose value
    is ['*'] followed by the fourteen zero characters of its padding. *)
Theorem wildcard_decoded (s : option str) (p : Z) (n : NBName.t) :
  __init__ WILDCARD s p = Ok n ->
  ascii_text (scope n) = true ->
  forallb (short_label 255) (labels_of (scope n)) = true ->
  exists data,
    to_bytes n = Ok data /\
    from_bytes data = Ok (mk decoded_wildcard (scope n) (purpose n)).
Proof.
  intros Hinit Hs Hl.
  destruct (init_inv _ _ _ _ Hinit) as (_ & Hb & Hn).
  assert (Hv : value n = WILDCARD) by (rewrite Hn; reflexivity).
  assert (Hp : purpose n = [p]) by (rewrite Hn; reflexivity).
  assert (Hsc : match scope n with c :: s' => upper (c :: s') | [] => [] end = scope n)
    by (rewrite Hn; cbn [scope]; apply init_scope_fixed).
  eexists. split.
  - apply to_bytes_ok; rewrite ?Hv, ?Hp; try assumption; try reflexivity.
    unfold len. simpl. lia.
  - cbn [app]. rewrite from_bytes_frame
      by (rewrite length_concat_letters, length_app, Hv, Hp; reflexivity).
    change (negb (32 =? 32)) with false. cbv iota.
    rewrite Hv, Hp.
    rewrite decode_bytes_letters, bind_Ok
      by (rewrite forallb_app; cbn [forallb]; rewrite Hb; reflexivity).
    change (padding WILDCARD) with NB_NAME_WILDCARD_PADDED.
    rewrite decode_value_and_purpose_ascii, bind_Ok by reflexivity.
    rewrite (decode_scope_labels _ (labels_of_ascii _ Hs)), bind_Ok.
    rewrite join_labels_of. cbn [fst snd].
    change (strip NB_NAME_WILDCARD_PADDED) with decoded_wildcard.
    rewrite init_ok by (try exact Hb; unfold len; simpl; lia).
    f_equal. f_equal; try reflexivity. exact Hsc.
Qed.

Lemma wildcard_decoded_witness :
  exists data,
    to_bytes (mk (lit "*") (lit "LAN") [32]) = Ok data /\
    from_bytes data = Ok (mk decoded_wildcard (lit "LAN") [32]).
Proof.
  apply (wildcard_decoded (Some (lit "lan")) 32 (mk (lit "*") (lit "LAN") [32]));
    reflexivity.
Defined.

Lemma hex_round_trip_all :
  forallb hex_round_trip (map Z.of_nat (seq 0 256)) = true.
Proof. vm_compute. reflexivity. Qed.

Lemma is_hex_digit_ascii (c : Z) : is_hex_digit c = true -> is_ascii c = true.
Proof.
  unfold is_hex_digit. rewrite orb_true_iff, !andb_true_iff, !Z.leb_le, is_ascii_iff.
  lia.
Qed.

(** [str(name)] of a name of the constructor: the value, ['<'], two
    lower-case hexadecimal digits that give the purpose back, ['>'], and
    then ['.'] and the scope when there is one. *)
Theorem str_of_name (v : str) (s : option str) (p : Z) (n : NBName.t) :
  __init__ v s p = Ok n ->
  exists h l,
    __str__ n
    = Ok (value n ++ [60; h; l; 62]
          ++ match scope n with [] => [] | _ => 46 :: scope n end) /\
    is_hex_digit h = true /\ is_hex_digit l = true /\
    16 * hex_value h + hex_value l = p.
Proof.
  intros Hinit. destruct (init_inv _ _ _ _ Hinit) as (_ & Hb & Hn).
  assert (Hpn : purpose n = [p]) by (rewrite Hn; reflexivity).
  assert (H := hex_round_trip_all). rewrite forallb_forall in H.
  specialize (H p). unfold hex_round_trip, hexlify in H. cbn [map concat app] in H.
  assert (Hin : In p (map Z.of_nat (seq 0 256))).
  { apply is_byte_iff in Hb. apply in_map_iff. exists (Z.to_nat p).
    split; [lia | apply in_seq; lia]. }
  specialize (H Hin). rewrite !andb_true_iff, Z.eqb_eq in H.
  destruct H as [[Hh Hl] Hp].
  exists (hex_digit (Z.shiftr p 4)), (hex_digit (Z.land p 15)).
  split; [|repeat split; assumption].
  unfold __str__. rewrite Hpn. unfold hexlify. cbn [map concat app].
  rewrite decode_ascii, bind_Ok.
  2:{ unfold ascii_text. cbn [forallb].
      rewrite (is_hex_digit_ascii _ Hh), (is_hex_digit_ascii _ Hl). reflexivity. }
  destruct (scope n); [reflexivity | rewrite <- app_assoc; reflexivity].
Qed.

Lemma str_of_name_witness :
  exists h l,
    __str__ (mk (lit "FILESRV") (lit "LAN") [32])
    = Ok (lit "FILESRV" ++ [60; h; l; 62] ++ 46 :: lit "LAN") /\
    is_hex_digit h = true /\ is_hex_digit l = true /\
    16 * hex_value h + hex_value l = 32.
Proof.
  apply (str_of_name (lit "FileSrv") (Some (lit "lan")) 32
           (mk (lit "FILESRV") (lit "LAN") [32])).
  reflexivity.
Defined.

(** ** Messages *)

Lemma pack_Hs_two (a b : Z) :
  pack_Hs [a; b]
  = if fits_H a && fits_H b then Ok (wire_H a ++ wire_H b) else Raise StructError.
Proof.
  unfold pack_Hs. cbn [mapM]. rewrite !pack_H_cases.
  destruct (fits_H a), (fits_H b); reflexivity.
Qed.

(** [build_query_entry] in full: a question type or class outside
    [0 .. 65535] raises [struct.error], before the name is looked at;
    otherwise a name that is [bytes] is followed by the two words, most
    significant byte first, and a name object raises [TypeError]. *)
Theorem build_query_entry_outcomes (q : NBNSRequest.t) :
  let fits := fits_H (NBNSRequest.question_type q)
              && fits_H (NBNSRequest.question_class q) in
  (fits = false -> NBNSRequest.build_query_entry q = Raise StructError) /\
  (fits = true -> forall name, NBNSRequest.question_name q = PyBytes name ->
     NBNSRequest.build_query_entry q
     = Ok (name ++ wire_H (NBNSRequest.question_type q)
                ++ wire_H (NBNSRequest.question_class q))) /\
  (fits = true -> forall n, NBNSRequest.question_name q = PyNBName n ->
     NBNSRequest.build_query_entry q = Raise TypeError).
Proof.
  cbv zeta. unfold NBNSRequest.build_query_entry. rewrite pack_Hs_two.
  split; [|split].
  - intros ->. reflexivity.
  - intros -> name ->. reflexivity.
  - intros -> n ->. reflexivity.
Qed.

Lemma build_query_entry_outcomes_witness :
  NBNSRequest.build_query_entry
    (NBNSRequest.mk (NBNSMessage.mk 1 0 0 0 0 1 0 0 0) (PyNBName (mk [] [] [0]))
       0x10000 1)
  = Raise StructError /\
  NBNSRequest.build_query_entry
    (NBNSRequest.mk (NBNSMessage.mk 1 0 0 0 0 1 0 0 0) (PyBytes [32; 0]) 0x21 1)
  = Ok ([32; 0] ++ wire_H 0x21 ++ wire_H 1) /\
  NBNSRequest.build_query_entry
    (NBNSRequest.mk (NBNSMessage.mk 1 0 0 0 0 1 0 0 0) (PyNBName (mk [] [] [0]))
       0x21 1)
  = Raise TypeError.
Proof.
  split; [|split].
  - apply (proj1 (build_query_entry_outcomes
             (NBNSRequest.mk (NBNSMessage.mk 1 0 0 0 0 1 0 0 0)
                (PyNBName (mk [] [] [0])) 0x10000 1))).
    reflexivity.
  - apply (proj1 (proj2 (build_query_entry_outcomes
             (NBNSRequest.mk (NBNSMessage.mk 1 0 0 0 0 1 0 0 0)
                (PyBytes [32; 0]) 0x21 1))));
      reflexivity.
  - apply (proj2 (proj2 (build_query_entry_outcomes
             (NBNSRequest.mk (NBNSMessage.mk 1 0 0 0 0 1 0 0 0)
                (PyNBName (mk [] [] [0])) 0x21 1))) eq_refl (mk [] [] [0])).
    reflexivity.
Defined.

(** A name query in full.  For every transaction id in [0 .. 65535] and
    every encoded name, the message is the two bytes of the id, the flags
    word 0x0110 with [broadcast] and 0x0100 without, the counts 1, 0, 0,
    0, the name, and the type NB and the class IN: 16 bytes around the
    name.  For every other transaction id [struct.error] is raised. *)
Theorem name_query_bytes (name_trn_id : Z) (name : bytes) (broadcast : bool) :
  (fits_H name_trn_id = true ->
   NBNSRequest.to_bytes
     (NBNSNameQueryRequest.__init__ name_trn_id (PyBytes name) broadcast)
   = Ok (wire_H name_trn_id
         ++ [0x01; if broadcast then 0x10 else 0x00; 0; 1; 0; 0; 0; 0; 0; 0]
         ++ name ++ [0x00; 0x20; 0x00; 0x01])) /\
  (fits_H name_trn_id = false ->
   NBNSRequest.to_bytes
     (NBNSNameQueryRequest.__init__ name_trn_id (PyBytes name) broadcast)
   = Raise StructError).
Proof.
  unfold NBNSRequest.to_bytes, NBNSMessage.to_bytes, NBNSMessage.build_header,
    pack_Hs.
  cbn [NBNSNameQueryRequest.__init__ NBNSRequest.__init__ NBNSRequest.base
       NBNSMessage.name_trn_id NBNSMessage.qdcount NBNSMessage.ancount
       NBNSMessage.nscount NBNSMessage.arcount mapM].
  rewrite (pack_H_cases name_trn_id).
  split; intros ->; [|reflexivity].
  destruct broadcast; reflexivity.
Qed.

Lemma name_query_bytes_witness :
  NBNSRequest.to_bytes (NBNSNameQueryRequest.__init__ 0x1234 (PyBytes [32; 0]) false)
  = Ok (wire_H 0x1234 ++ [0x01; 0x00; 0; 1; 0; 0; 0; 0; 0; 0]
        ++ [32; 0] ++ [0x00; 0x20; 0x00; 0x01]) /\
  NBNSRequest.to_bytes (NBNSNameQueryRequest.__init__ (-1) (PyBytes [32; 0]) true)
  = Raise StructError.
Proof.
  split.
  - apply (proj1 (name_query_bytes 0x1234 [32; 0] false)). reflexivity.
  - apply (proj2 (name_query_bytes (-1) [32; 0] true)). reflexivity.
Defined.

(** The flags word can be taken apart again: its four fields are the
    masked [rcode], [nm_flags], [opcode] and [r], at bits 0, 4, 11 and
    15. *)
Theorem flags_fields (m : NBNSMessage.t) :
  Z.land (NBNSMessage.flags m) 15 = NBNSMessage.rcode m mod 16 /\
  Z.land (Z.shiftr (NBNSMessage.flags m) 4) 127 = NBNSMessage.nm_flags m mod 128 /\
  Z.land (Z.shiftr (NBNSMessage.flags m) 11) 15 = NBNSMessage.opcode m mod 16 /\
  Z.land (Z.shiftr (NBNSMessage.flags m) 15) 1 = NBNSMessage.r m mod 2.
Proof.
  rewrite (Z.land_ones (NBNSMessage.flags m) 4 ltac:(lia) : Z.land _ 15 = _).
  rewrite (Z.land_ones (Z.shiftr (NBNSMessage.flags m) 4) 7 ltac:(lia)
           : Z.land _ 127 = _).
  rewrite (Z.land_ones (Z.shiftr (NBNSMessage.flags m) 11) 4 ltac:(lia)
           : Z.land _ 15 = _).
  rewrite (Z.land_ones (Z.shiftr (NBNSMessage.flags m) 15) 1 ltac:(lia)
           : Z.land _ 1 = _).
  rewrite !Z.shiftr_div_pow2 by lia.
  change (2 ^ 4) with 16. change (2 ^ 7) with 128. change (2 ^ 11) with 2048.
  change (2 ^ 15) with 32768. change (2 ^ 1) with 2.
  rewrite flags_masked.
  assert (Ha := Z.mod_pos_bound (NBNSMessage.rcode m) 16 ltac:(lia)).
  assert (Hb := Z.mod_pos_bound (NBNSMessage.nm_flags m) 128 ltac:(lia)).
  assert (Hc := Z.mod_pos_bound (NBNSMessage.opcode m) 16 ltac:(lia)).
  assert (Hd := Z.mod_pos_bound (NBNSMessage.r m) 2 ltac:(lia)).
  set (a := NBNSMessage.rcode m mod 16) in *.
  set (b := NBNSMessage.nm_flags m mod 128) in *.
  set (c := NBNSMessage.opcode m mod 16) in *.
  set (d := NBNSMessage.r m mod 2) in *.
  repeat split; Z.div_mod_to_equations; lia.
Qed.

Lemma build_header_ok (m : NBNSMessage.t) :
  words_fit m = true ->
  NBNSMessage.build_header m
  = Ok (wire_H (NBNSMessage.name_trn_id m) ++ wire_H (NBNSMessage.flags m)
        ++ wire_H (NBNSMessage.qdcount m) ++ wire_H (NBNSMessage.ancount m)
        ++ wire_H (NBNSMessage.nscount m) ++ wire_H (NBNSMessage.arcount m)).
Proof.
  unfold words_fit, NBNSMessage.build_header, pack_Hs. cbn [mapM].
  rewrite !pack_H_cases, (flags_fit m).
  rewrite !andb_true_iff. intros ((((H1 & H2) & H3) & H4) & H5).
  rewrite H1, H2, H3, H4, H5. reflexivity.
Qed.

Lemma wire_H_value (v hi lo : Z) :
  fits_H v = true -> wire_H v = [hi; lo] -> v = 256 * hi + lo.
Proof.
  unfold fits_H, wire_H. rewrite andb_true_iff, !Z.leb_le. intros Hv H.
  injection H as <- <-.
  rewrite Z.shiftr_div_pow2 by lia. change (2 ^ 8) with 256.
  rewrite (Z.land_ones v 8 ltac:(lia) : Z.land v 255 = _). change (2 ^ 8) with 256.
  apply Z.div_mod. lia.
Qed.

Lemma wire_H_inj (v w : Z) :
  fits_H v = true -> fits_H w = true -> wire_H v = wire_H w -> v = w.
Proof.
  intros Hv Hw E.
  rewrite (wire_H_value v _ _ Hv E). symmetry.
  apply (wire_H_value w _ _ Hw eq_refl).
Qed.

(** The header loses nothing of a message whose fields are in range:
    two such messages with the same twelve bytes are the same. *)
Theorem build_header_injective (m m' : NBNSMessage.t) :
  words_fit m = true -> flags_fit_fields m = true ->
  words_fit m' = true -> flags_fit_fields m' = true ->
  NBNSMessage.build_header m = NBNSMessage.build_header m' ->
  m = m'.
Proof.
  intros Hw Hf Hw' Hf' E.
  rewrite (build_header_ok m Hw), (build_header_ok m' Hw') in E.
  injection E as E1a E1b E2a E2b E3a E3b E4a E4b E5a E5b E6a E6b.
  unfold words_fit in Hw, Hw'. rewrite !andb_true_iff in Hw, Hw'.
  destruct Hw as ((((H1 & H2) & H3) & H4) & H5).
  destruct Hw' as ((((H1' & H2') & H3') & H4') & H5').
  assert (T1 := wire_H_inj _ _ H1 H1' (f_equal2 (fun a b => [a; b]) E1a E1b)).
  assert (T2 := wire_H_inj _ _ (flags_fit m) (flags_fit m')
                  (f_equal2 (fun a b => [a; b]) E2a E2b)).
  assert (T3 := wire_H_inj _ _ H2 H2' (f_equal2 (fun a b => [a; b]) E3a E3b)).
  assert (T4 := wire_H_inj _ _ H3 H3' (f_equal2 (fun a b => [a; b]) E4a E4b)).
  assert (T5 := wire_H_inj _ _ H4 H4' (f_equal2 (fun a b => [a; b]) E5a E5b)).
  assert (T6 := wire_H_inj _ _ H5 H5' (f_equal2 (fun a b => [a; b]) E6a E6b)).
  rewrite !flags_masked in T2.
  unfold flags_fit_fields, between in Hf, Hf'.
  rewrite !andb_true_iff, !Z.leb_le in Hf, Hf'.
  destruct m, m'. cbn [NBNSMessage.name_trn_id NBNSMessage.r NBNSMessage.opcode
    NBNSMessage.nm_flags NBNSMessage.rcode NBNSMessage.qdcount NBNSMessage.ancount
    NBNSMessage.nscount NBNSMessage.arcount] in *.
  rewrite !Z.mod_small in T2 by lia.
  assert (rcode = rcode0 /\ nm_flags = nm_flags0 /\ opcode = opcode0 /\ r = r0)
    as (-> & -> & -> & ->) by lia.
  subst. reflexivity.
Qed.

Lemma build_header_injective_witness :
  NBNSMessage.mk 0x1234 0 0 0x11 0 1 0 0 0 = NBNSMessage.mk 0x1234 0 0 0x11 0 1 0 0 0.
Proof.
  apply (build_header_injective (NBNSMessage.mk 0x1234 0 0 0x11 0 1 0 0 0)
           (NBNSMessage.mk 0x1234 0 0 0x11 0 1 0 0 0));
    reflexivity.
Defined.
